(** * experiments/notebooks/grep.py: URLs of [pd.read_csv] calls in notebooks

    A shallow embedding of the script and the properties of its scan loop,
    its line filter, its regular expression and its output writer.

    The script is one module-level loop.  Its variables ([urls], [nb]) and
    the part of the world it touches (the scanned directory, standard
    output, the file [urls.txt]) are the fields of one [state]; statements
    are computations in a state-and-exception monad [M], so that what an
    uncaught exception leaves behind (files already removed, no output
    written) can be read off the final state.

    Taken as given: the list [os.listdir] returns, and for every file
    what [json.load] makes of its bytes.  Outside the model: a missing
    command-line argument or directory, and text that the encoding of the
    output file cannot represent. *)

From Stdlib Require Import Strings.Ascii Floats.SpecFloat.
From stdpp Require Import gmap strings list sorting.

(** ** Characters and strings

    A Python [str] is modelled by [string].  The script only looks for
    ASCII substrings, for the quote characters and for the line feed, and
    sorts by code point; on UTF-8 text byte-wise and code-point-wise
    search and order coincide. *)

#[local] Arguments String.append !_ _ / : simpl nomatch.
#[local] Set Warnings "-clear-no-such-hyp".

Definition LF : Ascii.ascii := "010"%char.
Definition SQUOTE : Ascii.ascii := "039"%char.
Definition DQUOTE : Ascii.ascii := "034"%char.

Definition is_newline (c : Ascii.ascii) : bool := bool_decide (c = LF).
Definition is_quote (c : Ascii.ascii) : bool :=
  bool_decide (c = SQUOTE) || bool_decide (c = DQUOTE).

Fixpoint has_quote (s : string) : bool :=
  match s with
  | EmptyString => false
  | String c t => is_quote c || has_quote t
  end.

Fixpoint has_newline (s : string) : bool :=
  match s with
  | EmptyString => false
  | String c t => is_newline c || has_newline t
  end.

(** [needle in hay] for two strings. *)
Fixpoint contains (needle hay : string) : bool :=
  String.prefix needle hay ||
  match hay with
  | EmptyString => false
  | String _ t => contains needle t
  end.

(** [s.split] on the line feed: never empty, the pieces hold no line feed. *)
Fixpoint split_lines (s : string) : list string :=
  match s with
  | EmptyString => [EmptyString]
  | String c t =>
      if is_newline c then EmptyString :: split_lines t
      else match split_lines t with
           | h :: r => String c h :: r
           | [] => [String c EmptyString]
           end
  end.

(** [os.path.join(a, p)] of posixpath, for two components. *)
Definition ends_with_slash (a : string) : bool :=
  match String.rev a with
  | String c _ => bool_decide (c = "/"%char)
  | EmptyString => false
  end.

Definition path_join (a p : string) : string :=
  if String.prefix "/" p then p
  else if bool_decide (a = EmptyString) || ends_with_slash a then a +:+ p
  else a +:+ "/" +:+ p.

(** ** The regular expression

    The pattern of the script is the group [(https?://.+?)] followed by
    the character class of the two quote characters.

    [match_scheme s] matches [https?://] at the start of [s] and gives the
    matched text and what follows it.  [s?] is greedy, but the two
    alternatives exclude each other (the fifth character is [s] or [:]). *)
Fixpoint string_drop (n : nat) (s : string) : string :=
  match n, s with
  | S k, String _ t => string_drop k t
  | _, _ => s
  end.

Definition match_scheme (s : string) : option (string * string) :=
  if String.prefix "https://" s then Some ("https://", string_drop 8 s)
  else if String.prefix "http://" s then Some ("http://", string_drop 7 s)
  else None.

(** [lazy_until_quote s]: the lazy repetition [.*?] followed by a quote.
    The shortest run of characters other than the line feed that is
    followed by a quote; [None] when a line feed or the end of the string
    comes first. *)
Fixpoint lazy_until_quote (s : string) : option string :=
  match s with
  | EmptyString => None
  | String c t =>
      if is_quote c then Some EmptyString
      else if is_newline c then None
      else option_map (String c) (lazy_until_quote t)
  end.

(** The whole pattern at the start of [s]: the text of group 1.  [.+?]
    takes one character that is not a line feed (a quote is allowed there)
    and then behaves as [.*?]. *)
Definition match_here (s : string) : option string :=
  match match_scheme s with
  | Some (scheme, String c t) =>
      if is_newline c then None
      else option_map (fun body => scheme +:+ String c body) (lazy_until_quote t)
  | _ => None
  end.

(** [re.findall(pattern, s)]: the group of every match, leftmost first,
    matches not overlapping.  After a match the search resumes behind its
    closing quote: [skip] counts the characters of the current match that
    are still to be passed over. *)
Fixpoint findall_from (skip : nat) (s : string) : list string :=
  match s with
  | EmptyString => []
  | String _ t =>
      match skip with
      | S k => findall_from k t
      | O =>
          match match_here s with
          | Some url => url :: findall_from (String.length url) t
          | None => findall_from 0 t
          end
      end
  end.

Definition findall (s : string) : list string := findall_from 0 s.

(** ** Values of [json.load]

    What the parser returns: [None], booleans, integers, floats, strings,
    lists and dicts.  A dict is the list of its items in insertion order,
    looked up from the front. *)
#[warnings="-register-all"]
Inductive json :=
| JNull
| JBool (b : bool)
| JInt (z : Z)
| JFloat (f : spec_float)
| JStr (s : string)
| JList (l : list json)
| JDict (items : list (string * json)).

(** The exceptions the script can meet.  [JSONDecodeError] and
    [UnicodeDecodeError] are the two its [except] clause names. *)
Inductive exn :=
| JSONDecodeError | UnicodeDecodeError
| FileNotFoundError | IsADirectoryError
| NameError | AttributeError | TypeError | KeyError | IndexError.

Inductive outcome (A : Type) :=
| Returns (a : A)
| Raises (e : exn).
Arguments Returns {A} a.
Arguments Raises {A} e.

Definition returns {A} (o : outcome A) : bool :=
  match o with Returns _ => true | Raises _ => false end.

Fixpoint dict_lookup (k : string) (items : list (string * json)) : option json :=
  match items with
  | [] => None
  | (k', v) :: rest => if bool_decide (k' = k) then Some v else dict_lookup k rest
  end.

(** [d.get(k, [])]: only a dict has the method. *)
Definition py_get (d : json) (k : string) : outcome json :=
  match d with
  | JDict items => Returns (default (JList []) (dict_lookup k items))
  | _ => Raises AttributeError
  end.

(** [d[k]] with a string key: a missing key of a dict is a [KeyError],
    a list or a string wants integer indices, the rest is not
    subscriptable. *)
Definition py_getitem (d : json) (k : string) : outcome json :=
  match d with
  | JDict items =>
      match dict_lookup k items with
      | Some v => Returns v
      | None => Raises KeyError
      end
  | _ => Raises TypeError
  end.

(** [v != s] for a string [s]: values of other types are never equal to it. *)
Definition py_ne_str (v : json) (s : string) : bool :=
  match v with
  | JStr s' => negb (bool_decide (s' = s))
  | _ => true
  end.

(** [not v]: the falsy values are [None], [False], zero and the empty
    string, list and dict. *)
Definition py_not (v : json) : bool :=
  match v with
  | JNull | JBool false | JInt 0%Z | JFloat (S754_zero _)
  | JStr EmptyString | JList [] | JDict [] => true
  | _ => false
  end.

(** The items a [for] loop draws from [v]: the elements of a list, the
    keys of a dict, the characters of a string (the script only meets
    those as cells, where each of them fails at its first subscript). *)
Definition py_iter (v : json) : outcome (list json) :=
  match v with
  | JList l => Returns l
  | JDict items => Returns (map (fun kv => JStr (fst kv)) items)
  | JStr s => Returns (map (fun c => JStr (String c EmptyString)) (String.list_ascii_of_string s))
  | _ => Raises TypeError
  end.

(** [s in v] for a string [s]: substring of a string, element of a list,
    key of a dict. *)
Definition py_in (s : string) (v : json) : outcome bool :=
  match v with
  | JStr hay => Returns (contains s hay)
  | JList l => Returns (existsb (fun x => negb (py_ne_str x s)) l)
  | JDict items => Returns (existsb (fun kv => bool_decide (fst kv = s)) items)
  | _ => Raises TypeError
  end.

(** [re.findall(pattern, v)]: the argument must be a string. *)
Definition re_findall (v : json) : outcome (list string) :=
  match v with
  | JStr s => Returns (findall s)
  | _ => Raises TypeError
  end.

(** [a or b], where only [b] can raise: [b] is not evaluated when [a]
    holds. *)
Definition py_or (a : bool) (b : outcome bool) : outcome bool :=
  if a then Returns true else b.

(** [l[0]] *)
Definition py_first {A} (l : list A) : outcome A :=
  match l with
  | x :: _ => Returns x
  | [] => Raises IndexError
  end.

(** ** The state of a run *)

(** An entry of the scanned directory: a file, given by what [json.load]
    makes of its bytes (a value, or the exception it raises), or something
    [open] refuses, such as a subdirectory. *)
Inductive entry :=
| RegularFile (load : outcome json)
| Subdirectory.

Record state := State {
  dir : gmap string entry;      (* the directory, by entry name *)
  stdout : list string;         (* the lines printed so far *)
  urls_txt : option string;     (* contents of urls.txt in the working
                                   directory, which is not the scanned one *)
  urls : gset string;           (* the variable [urls] *)
  nb : option json;             (* the variable [nb], unbound at first *)
}.

Definition set_dir (d : gmap string entry) (st : state) : state :=
  State d (stdout st) (urls_txt st) (urls st) (nb st).
Definition set_stdout (o : list string) (st : state) : state :=
  State (dir st) o (urls_txt st) (urls st) (nb st).
Definition set_urls_txt (c : option string) (st : state) : state :=
  State (dir st) (stdout st) c (urls st) (nb st).
Definition set_urls (u : gset string) (st : state) : state :=
  State (dir st) (stdout st) (urls_txt st) u (nb st).
Definition set_nb (v : option json) (st : state) : state :=
  State (dir st) (stdout st) (urls_txt st) (urls st) v.

(** Statements: a result or an exception, and the state left behind. *)
Definition M (A : Type) : Type := state -> outcome A * state.

#[global] Instance M_ret : MRet M := fun A a st => (Returns a, st).
#[global] Instance M_bind : MBind M := fun A B f m st =>
  match m st with
  | (Returns a, st') => f a st'
  | (Raises e, st') => (Raises e, st')
  end.
#[global] Instance M_throw : MThrow exn M := fun A e st => (Raises e, st).

Definition lift {A} (o : outcome A) : M A := fun st => (o, st).
Definition get_state : M state := fun st => (Returns st, st).
Definition modify (f : state -> state) : M unit := fun st => (Returns tt, f st).

(** [for x in l: body(x)]; a [continue] ends the body. *)
Fixpoint for_each {A} (body : A -> M unit) (l : list A) : M unit :=
  match l with
  | [] => mret tt
  | x :: rest => body x ;; for_each body rest
  end.

(** ** The script *)

Definition newline : string := String LF EmptyString.

(** [print(a, b)] *)
Definition print2 (a b : string) : M unit :=
  modify (fun st => set_stdout (stdout st ++ [a +:+ " " +:+ b]) st).

(** [open(full_filename, "rb")]: the result stands for the file object,
    it is what [json.load] will make of it. *)
Definition open_rb (filename : string) : M (outcome json) :=
  st ← get_state;
  match dir st !! filename with
  | Some (RegularFile load) => mret load
  | Some Subdirectory => mthrow IsADirectoryError
  | None => mthrow FileNotFoundError
  end.

(** [os.remove(full_filename)] *)
Definition os_remove (filename : string) : M unit :=
  st ← get_state;
  match dir st !! filename with
  | Some (RegularFile _) => modify (fun st => set_dir (delete filename (dir st)) st)
  | Some Subdirectory => mthrow IsADirectoryError
  | None => mthrow FileNotFoundError
  end.

(** The name [nb]: a [NameError] while nothing has been assigned to it. *)
Definition read_nb : M json :=
  st ← get_state;
  match nb st with
  | Some v => mret v
  | None => mthrow NameError
  end.

(** [urls.add(url)] *)
Definition urls_add (url : string) : M unit :=
  modify (fun st => set_urls ({[url]} ∪ urls st) st).

(** The body of [for line in source]. *)
Definition scan_line (line : json) : M unit :=
  has_call ← lift (py_in "pd.read_csv" line);
  if negb has_call then mret tt else
  has_https ← lift (py_in "https://" line);
  has_scheme ← lift (py_or has_https (py_in "http://" line));
  if negb has_scheme then mret tt else
  found ← lift (re_findall line);
  url ← lift (py_first found);
  urls_add url.

(** [source] after [if isinstance(source, str): source = source.split(...)],
    as the items the line loop draws from it. *)
Definition source_lines (source : json) : outcome (list json) :=
  match source with
  | JStr s => Returns (map JStr (split_lines s))
  | _ => py_iter source
  end.

(** The body of [for cell in ...]. *)
Definition scan_cell (cell : json) : M unit :=
  cell_type ← lift (py_getitem cell "cell_type");
  if py_ne_str cell_type "code" then mret tt else
  source ← lift (py_getitem cell "source");
  if py_not source then mret tt else
  lines ← lift (source_lines source);
  for_each scan_line lines.

(** The [try] statement around [json.load(f)]. *)
Definition caught (e : exn) : bool :=
  match e with
  | JSONDecodeError | UnicodeDecodeError => true
  | _ => false
  end.

Definition try_load (f : outcome json) (full_filename filename : string) : M unit :=
  match f with
  | Returns v => modify (set_nb (Some v))
  | Raises e =>
      if caught e then
        print2 "removing" full_filename ;;
        os_remove filename
      else mthrow e
  end.

(** [for cell in nb.get("cells", []): ...] *)
Definition scan_cells (nb : json) : M unit :=
  cells ← lift (py_get nb "cells");
  cells ← lift (py_iter cells);
  for_each scan_cell cells.

(** The body of [for filename in os.listdir(dirname)].  Nothing leaves the
    body after the [except] clause: the cell loop follows in either case,
    on whatever [nb] is bound to. *)
Definition scan_file (dirname filename : string) : M unit :=
  let full_filename := path_join dirname filename in
  f ← open_rb filename;
  try_load f full_filename filename ;;
  nb ← read_nb;
  scan_cells nb.

(** [sorted(urls)] *)
Definition sorted (s : gset string) : list string :=
  merge_sort String.le (elements s).

(** What the final loop writes for a list of URLs. *)
Fixpoint written (l : list string) : string :=
  match l with
  | [] => EmptyString
  | url :: rest => url +:+ newline +:+ written rest
  end.

(** The last statement: [urls.txt] is opened for writing, which empties
    it, and receives every URL followed by a line feed. *)
Definition write_urls : M unit :=
  modify (fun st => set_urls_txt (Some (written (sorted (urls st)))) st).

(** The script, for the list [listing] that [os.listdir(dirname)] returns. *)
Definition main (dirname : string) (listing : list string) : M unit :=
  for_each (scan_file dirname) listing ;;
  write_urls.

(** The state a run starts from: the directory and whatever [urls.txt]
    holds from before. *)
Definition initial (d : gmap string entry) (old : option string) : state :=
  State d [] old ∅ None.

(** Notebooks as the examples below build them. *)
Definition code_cell (source : json) : json :=
  JDict [("cell_type", JStr "code"); ("source", source)].
Definition markdown_cell (source : json) : json :=
  JDict [("cell_type", JStr "markdown"); ("source", source)].
Definition notebook (cells : list json) : json :=
  JDict [("cells", JList cells)].

(** What a notebook contributes and whether its scan ends normally: both
    are read off a scan that starts from the empty set ([scan_cells_frame]
    shows that the starting state does not matter). *)
Definition nb_scan (v : json) : outcome unit * state :=
  scan_cells v (initial ∅ None).
Definition nb_urls (v : json) : gset string := urls (snd (nb_scan v)).
Definition nb_ok (v : json) : bool := returns (fst (nb_scan v)).

(** The notebook a directory holds under a name, if the entry is a file
    that parses. *)
Definition loaded (d : gmap string entry) (filename : string) : option json :=
  match d !! filename with
  | Some (RegularFile (Returns v)) => Some v
  | _ => None
  end.

(** What the loop relies on when it reaches the cell loop with an [nb]
    left over from an earlier file: that notebook was scanned to the end,
    so its URLs are in the set already. *)
Definition nb_scanned (st : state) : Prop :=
  ∀ v, nb st = Some v → nb_ok v = true ∧ nb_urls v ⊆ urls st.

(** The shape the pattern gives to every match: a scheme, one character
    that is not a line feed, and a body free of quotes and line feeds. *)
Definition url_shape (u : string) : Prop :=
  ∃ scheme c body,
    u = scheme +:+ String c body ∧
    (scheme = "http://" ∨ scheme = "https://") ∧
    is_newline c = false ∧ has_quote body = false ∧ has_newline body = false.

(** Some suffix of [s] starts with a scheme and holds a quote. *)
Fixpoint quote_after_scheme (s : string) : bool :=
  match s with
  | EmptyString => false
  | String _ t =>
      (bool_decide (is_Some (match_scheme s)) && has_quote s) || quote_after_scheme t
  end.

(** Scanning only adds to [urls]: a statement that, from any state, ends
    as [o] and adds the URLs [U], reading and changing nothing else. *)
Definition adds (m : M unit) (o : outcome unit) (U : gset string) : Prop :=
  ∀ st, m st = (o, set_urls (U ∪ urls st) st).

Definition framed (m : M unit) : Prop := ∃ o U, adds m o U.

(** The state after the [except] clause has run for [filename]. *)
Definition removed (dirname filename : string) (st : state) : state :=
  set_dir (delete filename (dir st))
    (set_stdout (stdout st ++ ["removing" +:+ " " +:+ path_join dirname filename]) st).

(** Every URL in the set has that shape. *)
Definition urls_shaped (st : state) : Prop := ∀ u, u ∈ urls st → url_shape u.

(** ** Example data *)

Definition example_line : string := "df = pd.read_csv('https://example.com/data.csv')".
Definition example_notebook : json := notebook [code_cell (JStr (example_line +:+ newline))].

Definition corrupt_first : gmap string entry :=
  {[ "bad.ipynb" := RegularFile (Raises JSONDecodeError);
     "good.ipynb" := RegularFile (Returns example_notebook) ]}.

Definition unquoted_line : string := "df = pd.read_csv(http://example.com/data.csv)".

Definition dquoted_line : string :=
  "df = pd.read_csv(" +:+ String DQUOTE "http://a.com/x.csv" +:+ String DQUOTE ")".

Definition two_urls_line : string :=
  "a = pd.read_csv('http://a.com/x.csv'); b = pd.read_csv('https://b.org/y.csv')".

Definition dup_notebook : json :=
  notebook [code_cell (JList [JStr "d = pd.read_csv('https://dup.example.com/d.csv')"])].
Definition za_notebook : json :=
  notebook [markdown_cell (JStr "two tables");
            code_cell (JStr ("z = pd.read_csv('https://z.com/a.csv')" +:+ newline +:+
                             "a = pd.read_csv('https://a.com/b.csv')"))].

Definition three_notebooks : gmap string entry :=
  {[ "one.ipynb" := RegularFile (Returns dup_notebook);
     "two.ipynb" := RegularFile (Returns dup_notebook);
     "za.ipynb" := RegularFile (Returns za_notebook) ]}.

Definition concatenated_line : string := "df = pd.read_csv('http://'+host+'/x.csv')".

Definition mixed_directory : gmap string entry :=
  {[ "one.ipynb" := RegularFile (Returns dup_notebook);
     "broken.ipynb" := RegularFile (Raises UnicodeDecodeError);
     "za.ipynb" := RegularFile (Returns za_notebook) ]}.

(** A directory of notebooks in which no line passes the checks. *)
Definition quiet_directory : gmap string entry :=
  {[ "plots.ipynb" :=
       RegularFile (Returns (notebook [markdown_cell (JStr example_line);
                                       code_cell (JStr "df = pd.read_csv('local.csv')")]));
     "old_format.ipynb" :=
       RegularFile (Returns (JDict [("worksheets", JList []); ("nbformat", JInt 3)])) ]}.


(** ** Notions for the properties of whole runs *)

(** The line printed when a file is removed. *)
Definition diagnostic (dirname filename : string) : string :=
  "removing" +:+ " " +:+ path_join dirname filename.

(** A file on which [json.load] raises an exception that the [except]
    clause names. *)
Definition corrupt (d : gmap string entry) (filename : string) : bool :=
  match d !! filename with
  | Some (RegularFile (Raises e)) => caught e
  | _ => false
  end.



(** A notebook that is scanned to the end and holds no URL. *)
Definition yields_nothing (d : gmap string entry) (filename : string) : bool :=
  match loaded d filename with
  | Some v => nb_ok v && bool_decide (nb_urls v = ∅)
  | None => false
  end.

Definition is_str (v : json) : bool :=
  match v with JStr _ => true | _ => false end.

(** Where a URL of a notebook comes from, read off the three loops: a
    string line that passes both checks and on which [url] is the first
    match, among the lines of a code cell with a truthy source, among the
    cells of the notebook. *)
Definition line_yields (line : json) (url : string) : Prop :=
  ∃ s rest,
    line = JStr s ∧
    contains "pd.read_csv" s = true ∧
    contains "https://" s || contains "http://" s = true ∧
    findall s = url :: rest.

Definition cell_yields (cell : json) (url : string) : Prop :=
  ∃ source lines line,
    py_getitem cell "cell_type" = Returns (JStr "code") ∧
    py_getitem cell "source" = Returns source ∧
    py_not source = false ∧
    source_lines source = Returns lines ∧
    line ∈ lines ∧ line_yields line url.

Definition nb_yields (v : json) (url : string) : Prop :=
  ∃ cells cell_list cell,
    py_get v "cells" = Returns cells ∧
    py_iter cells = Returns cell_list ∧
    cell ∈ cell_list ∧ cell_yields cell url.

(** ** Strings *)

Section Strings.

Lemma append_assoc (a b c : string) : (a +:+ b) +:+ c = a +:+ (b +:+ c).
Proof. induction a as [|x a IH]; simpl; congruence. Qed.

Lemma prefix_spec (p s : string) :
  String.prefix p s = true ↔ ∃ t, s = p +:+ t.
Proof.
  revert s. induction p as [|a p IH]; intros s; simpl.
  - destruct s; split; eauto.
  - destruct s as [|b s]; simpl.
    + split; [done | intros [t Ht]; discriminate].
    + destruct (ascii_dec a b) as [->|Hne].
      * rewrite IH. split; intros [t Ht]; exists t; simplify_eq; done.
      * split; [done | intros [t Ht]; simplify_eq].
Qed.

Lemma prefix_drop (p s : string) :
  String.prefix p s = true → s = p +:+ string_drop (String.length p) s.
Proof.
  revert s. induction p as [|a p IH]; intros s; simpl.
  - by destruct s.
  - destruct s as [|b s]; simpl; [done|].
    destruct (ascii_dec a b) as [->|]; [|done].
    intros H. f_equal. by apply IH.
Qed.

Lemma contains_spec (needle hay : string) :
  contains needle hay = true ↔ ∃ a b, hay = a +:+ needle +:+ b.
Proof.
  induction hay as [|c hay IH]; cbn [contains].
  - rewrite orb_false_r, prefix_spec. split.
    + intros [t Ht]. exists EmptyString, t. done.
    + intros [[|x a] [b Hb]]; simpl in *; [eauto | discriminate].
  - rewrite orb_true_iff, prefix_spec, IH. split.
    + intros [[t Ht]|(a & b & Hab)].
      * exists EmptyString, t. done.
      * exists (String c a), b. simpl. by rewrite Hab.
    + intros ([|x a] & b & Hab); simpl in *; [eauto|].
      right. exists a, b. by simplify_eq.
Qed.

Lemma has_quote_app (a b : string) :
  has_quote (a +:+ b) = has_quote a || has_quote b.
Proof. induction a as [|c a IH]; simpl; [done|]. by rewrite IH, orb_assoc. Qed.

Lemma has_newline_app (a b : string) :
  has_newline (a +:+ b) = has_newline a || has_newline b.
Proof. induction a as [|c a IH]; simpl; [done|]. by rewrite IH, orb_assoc. Qed.

Lemma split_lines_nonempty (s : string) : split_lines s ≠ [].
Proof. induction s as [|c s IH]; simpl; [done|]. by repeat case_match. Qed.

Lemma split_lines_app (a b : string) :
  has_newline a = false →
  split_lines (a +:+ String LF b) = a :: split_lines b.
Proof.
  induction a as [|c a IH]; simpl; [done|].
  intros [Hc Ha]%orb_false_iff. rewrite Hc, IH; done.
Qed.

End Strings.

(** ** The pattern *)

Section Pattern.

Lemma match_scheme_spec (s scheme rest : string) :
  match_scheme s = Some (scheme, rest) →
  (scheme = "http://" ∨ scheme = "https://") ∧ s = scheme +:+ rest.
Proof.
  unfold match_scheme. intros H.
  destruct (String.prefix "https://" s) eqn:E1.
  - simplify_eq. split; [by right|]. by apply prefix_drop in E1.
  - destruct (String.prefix "http://" s) eqn:E2; simplify_eq.
    split; [by left|]. by apply prefix_drop in E2.
Qed.

(** The lazy repetition stops at the first quote, and only if no line
    feed precedes it. *)
Lemma lazy_until_quote_spec (s body : string) :
  lazy_until_quote s = Some body →
  has_quote body = false ∧ has_newline body = false ∧
  ∃ qc rest, is_quote qc = true ∧ s = body +:+ String qc rest.
Proof.
  revert body. induction s as [|c s IH]; intros body; simpl; [done|].
  destruct (is_quote c) eqn:Hq.
  - intros [= <-]. repeat split; eauto.
  - destruct (is_newline c) eqn:Hn; [done|].
    destruct (lazy_until_quote s) as [b|]; [|done].
    intros [= <-]. destruct (IH b eq_refl) as (Hb1 & Hb2 & qc & rest & Hqc & ->).
    simpl. rewrite Hq, Hn, Hb1, Hb2. repeat split; eauto.
Qed.

Lemma match_here_spec (s u : string) :
  match_here s = Some u →
  url_shape u ∧ ∃ qc rest, is_quote qc = true ∧ s = u +:+ String qc rest.
Proof.
  unfold match_here. destruct (match_scheme s) as [[scheme [|c t]]|] eqn:Hs; try done.
  destruct (is_newline c) eqn:Hn; [done|].
  destruct (lazy_until_quote t) as [body|] eqn:Hb; [|done].
  intros [= <-].
  apply match_scheme_spec in Hs as [Hscheme ->].
  apply lazy_until_quote_spec in Hb as (Hb1 & Hb2 & qc & rest & Hqc & ->).
  split.
  - exists scheme, c, body. done.
  - exists qc, rest. split; [done|].
    by rewrite append_assoc.
Qed.

Lemma match_here_scheme (s u : string) :
  match_here s = Some u → is_Some (match_scheme s) ∧ has_quote s = true.
Proof.
  intros H. pose proof (match_here_spec _ _ H) as (_ & qc & rest & Hqc & Hs).
  split.
  - unfold match_here in H. destruct (match_scheme s); [eauto | done].
  - rewrite Hs, has_quote_app. simpl. rewrite Hqc. by rewrite orb_true_r.
Qed.

(** Every element of the result list is a match at some position. *)
Lemma findall_from_match (k : nat) (s u : string) :
  u ∈ findall_from k s →
  ∃ pre suf, s = pre +:+ suf ∧ match_here suf = Some u.
Proof.
  revert k. induction s as [|c s IH]; intros k; cbn [findall_from].
  - by intros ?%elem_of_nil.
  - assert (∀ k', u ∈ findall_from k' s →
              ∃ pre suf, String c s = pre +:+ suf ∧ match_here suf = Some u) as Htail.
    { intros k' (pre & suf & -> & Hm)%IH. by exists (String c pre), suf. }
    destruct k as [|k]; [|by apply Htail].
    destruct (match_here (String c s)) as [url|] eqn:Hm; [|by apply Htail].
    intros [->|Hin]%elem_of_cons; [|by eapply Htail].
    by exists EmptyString, (String c s).
Qed.

Lemma findall_shape (s u : string) : u ∈ findall s → url_shape u.
Proof.
  intros (pre & suf & _ & Hm)%findall_from_match.
  by apply match_here_spec in Hm as [? _].
Qed.

(** The head of the result list is the match at the leftmost position
    at which the pattern matches. *)
Lemma findall_head_leftmost (s u : string) (rest : list string) :
  findall s = u :: rest →
  ∃ pre suf, s = pre +:+ suf ∧ match_here suf = Some u ∧
    ∀ pre' suf', s = pre' +:+ suf' →
      String.length pre' < String.length pre → match_here suf' = None.
Proof.
  unfold findall. revert u rest.
  induction s as [|c s IH]; intros u rest; cbn [findall_from]; [done|].
  destruct (match_here (String c s)) as [url|] eqn:Hm.
  - intros [= -> _]. exists EmptyString, (String c s).
    repeat split; [done|]. simpl. lia.
  - intros (pre & suf & -> & Hsuf & Hleft)%IH.
    exists (String c pre), suf. repeat split; [done|].
    intros [|c' pre'] suf' Heq Hlen; simpl in *.
    + by subst.
    + simplify_eq. apply (Hleft pre' suf'); [done | lia].
Qed.

Lemma quote_after_scheme_spec (s : string) :
  quote_after_scheme s = true ↔
  ∃ pre suf, s = pre +:+ suf ∧ is_Some (match_scheme suf) ∧ has_quote suf = true.
Proof.
  induction s as [|c s IH]; cbn [quote_after_scheme].
  - split; [done|]. intros ([|] & suf & Heq & Hs & Hq); simplify_eq/=.
  - rewrite orb_true_iff, andb_true_iff, bool_decide_eq_true, IH. split.
    + intros [[Hs Hq]|(pre & suf & -> & Hs & Hq)].
      * by exists EmptyString, (String c s).
      * by exists (String c pre), suf.
    + intros ([|c' pre] & suf & Heq & Hs & Hq); simplify_eq/=.
      * by left.
      * right. by exists pre, suf.
Qed.

(** Without a quote behind any scheme the pattern matches nowhere. *)
Lemma findall_from_no_quote (k : nat) (s : string) :
  quote_after_scheme s = false → findall_from k s = [].
Proof.
  revert k. induction s as [|c s IH]; intros k; cbn [findall_from quote_after_scheme];
    [done|].
  intros [Hhere Htail]%orb_false_iff.
  destruct k as [|k]; [|by apply IH].
  destruct (match_here (String c s)) as [url|] eqn:Hm; [|by apply IH].
  apply match_here_scheme in Hm as [Hs Hq].
  rewrite Hq, andb_true_r in Hhere. by apply bool_decide_eq_false in Hhere.
Qed.

End Pattern.

(** ** Statements *)

Ltac unfold_M :=
  cbv [mbind M_bind mret M_ret mthrow M_throw lift modify get_state].

Section Statements.

Lemma bind_unfold {A B} (m : M A) (f : A → M B) (st : state) :
  (m ≫= f) st =
  match m st with
  | (Returns a, st') => f a st'
  | (Raises e, st') => (Raises e, st')
  end.
Proof. done. Qed.

Lemma lift_bind {A B} (o : outcome A) (f : A → M B) (st : state) :
  (lift o ≫= f) st =
  match o with
  | Returns a => f a st
  | Raises e => (Raises e, st)
  end.
Proof. by destruct o. Qed.

Lemma for_each_cons {A} (body : A → M unit) (x : A) (l : list A) (st : state) :
  for_each body (x :: l) st =
  match body x st with
  | (Returns _, st') => for_each body l st'
  | (Raises e, st') => (Raises e, st')
  end.
Proof. done. Qed.

Lemma set_urls_same (st : state) : set_urls (urls st) st = st.
Proof. by destruct st. Qed.

(** A property of the state that every body keeps is kept by the loop,
    however the loop ends. *)
Lemma for_each_invariant {A} (I : state → Prop) (body : A → M unit) (l : list A) :
  (∀ x st, I st → I (snd (body x st))) →
  ∀ st, I st → I (snd (for_each body l st)).
Proof.
  intros Hbody. induction l as [|x l IH]; intros st Hst; [done|].
  rewrite for_each_cons. specialize (Hbody x st Hst).
  destruct (body x st) as [[[]|e] st1]; [by apply IH | done].
Qed.

(** What a line does when it is a string. *)
Lemma scan_line_str (line : string) (st : state) :
  scan_line (JStr line) st =
  if contains "pd.read_csv" line &&
     (contains "https://" line || contains "http://" line)
  then match findall line with
       | url :: _ => (Returns tt, set_urls ({[url]} ∪ urls st) st)
       | [] => (Raises IndexError, st)
       end
  else (Returns tt, st).
Proof.
  unfold scan_line. rewrite lift_bind. cbn [py_in].
  destruct (contains "pd.read_csv" line); cbn [negb andb]; [|done].
  rewrite lift_bind.
  destruct (contains "https://" line); cbn [orb py_or].
  - rewrite lift_bind. cbn [negb re_findall]. rewrite !lift_bind.
    by destruct (findall line).
  - rewrite lift_bind.
    destruct (contains "http://" line); cbn [negb re_findall]; [|done].
    rewrite !lift_bind. by destruct (findall line).
Qed.

(** A skipped cell: the type is not the string [code]. *)
Lemma scan_cell_skip (cell cell_type : json) (st : state) :
  py_getitem cell "cell_type" = Returns cell_type →
  py_ne_str cell_type "code" = true →
  scan_cell cell st = (Returns tt, st).
Proof. intros H1 H2. unfold scan_cell. by rewrite lift_bind, H1, H2. Qed.

(** A code cell: its lines are scanned in order. *)
Lemma scan_cell_code (cell source : json) (st : state) :
  py_getitem cell "cell_type" = Returns (JStr "code") →
  py_getitem cell "source" = Returns source →
  scan_cell cell st =
  if py_not source then (Returns tt, st)
  else match source_lines source with
       | Returns lines => for_each scan_line lines st
       | Raises e => (Raises e, st)
       end.
Proof.
  intros H1 H2. unfold scan_cell. rewrite lift_bind, H1. cbn [py_ne_str].
  rewrite bool_decide_eq_true_2 by done. cbn [negb].
  rewrite lift_bind, H2. destruct (py_not source); [done|].
  by rewrite lift_bind.
Qed.

End Statements.

(** ** Scanning only adds to [urls]

    The loops over lines and cells read nothing of the state and change
    only the set: from any state they end the same way and add the same
    URLs. *)

Section Frame.

Lemma adds_skip : adds (mret tt) (Returns tt) ∅.
Proof.
  intros st. unfold_M. f_equal.
  replace (∅ ∪ urls st) with (urls st) by set_solver.
  by rewrite set_urls_same.
Qed.

Lemma adds_raise (e : exn) : adds (mthrow e) (Raises e) ∅.
Proof.
  intros st. unfold_M. f_equal.
  replace (∅ ∪ urls st) with (urls st) by set_solver.
  by rewrite set_urls_same.
Qed.

Lemma adds_urls_add (url : string) : adds (urls_add url) (Returns tt) {[url]}.
Proof. done. Qed.

Lemma adds_seq (m1 m2 : M unit) (o : outcome unit) (U1 U2 : gset string) :
  adds m1 (Returns tt) U1 → adds m2 o U2 → adds (m1 ;; m2) o (U2 ∪ U1).
Proof.
  intros H1 H2 st. rewrite bind_unfold, H1, H2. f_equal.
  cbn. unfold set_urls; cbn. f_equal. set_solver.
Qed.

Lemma adds_seq_raise (m1 m2 : M unit) (e : exn) (U1 : gset string) :
  adds m1 (Raises e) U1 → adds (m1 ;; m2) (Raises e) U1.
Proof. intros H1 st. by rewrite bind_unfold, H1. Qed.

Lemma framed_lift_bind {A} (o : outcome A) (f : A → M unit) :
  (∀ a, o = Returns a → framed (f a)) → framed (lift o ≫= f).
Proof.
  intros Hf. destruct o as [a|e].
  - destruct (Hf a eq_refl) as (o & U & H). exists o, U. intros st.
    by rewrite lift_bind.
  - exists (Raises e), ∅. intros st. rewrite lift_bind. apply adds_raise.
Qed.

Lemma framed_skip : framed (mret tt).
Proof. eexists _, _. apply adds_skip. Qed.

Lemma framed_for_each {A} (body : A → M unit) (l : list A) :
  (∀ x, x ∈ l → framed (body x)) → framed (for_each body l).
Proof.
  induction l as [|x l IH]; intros Hbody; cbn [for_each].
  - apply framed_skip.
  - destruct (Hbody x) as ([[]|e] & U1 & H1); [by left | |].
    + destruct IH as (o & U2 & H2).
      { intros y Hy. apply Hbody. by right. }
      eexists _, _. by eapply adds_seq.
    + eexists _, _. by eapply adds_seq_raise.
Qed.

Lemma framed_scan_line (line : json) : framed (scan_line line).
Proof.
  unfold scan_line.
  apply framed_lift_bind; intros has_call _.
  destruct (negb has_call); [apply framed_skip|].
  apply framed_lift_bind; intros has_https _.
  apply framed_lift_bind; intros has_scheme _.
  destruct (negb has_scheme); [apply framed_skip|].
  apply framed_lift_bind; intros found _.
  apply framed_lift_bind; intros url _.
  eexists _, _. apply adds_urls_add.
Qed.

Lemma framed_scan_cell (cell : json) : framed (scan_cell cell).
Proof.
  unfold scan_cell.
  apply framed_lift_bind; intros cell_type _.
  destruct (py_ne_str cell_type "code"); [apply framed_skip|].
  apply framed_lift_bind; intros source _.
  destruct (py_not source); [apply framed_skip|].
  apply framed_lift_bind; intros lines _.
  apply framed_for_each. intros line _. apply framed_scan_line.
Qed.

Lemma framed_scan_cells (v : json) : framed (scan_cells v).
Proof.
  unfold scan_cells.
  apply framed_lift_bind; intros cells _.
  apply framed_lift_bind; intros cell_list _.
  apply framed_for_each. intros cell _. apply framed_scan_cell.
Qed.

(** How a framed statement ends does not depend on the state. *)
Lemma framed_outcome (m : M unit) (st1 st2 : state) :
  framed m → fst (m st1) = fst (m st2).
Proof.
  intros (o & U & H). by rewrite !H.
Qed.

Lemma scan_cells_frame (v : json) (st : state) :
  scan_cells v st = (fst (nb_scan v), set_urls (nb_urls v ∪ urls st) st).
Proof.
  destruct (framed_scan_cells v) as (o & U & H).
  unfold nb_urls, nb_scan. rewrite !H. cbn. do 2 f_equal. set_solver.
Qed.

(** A loop that ends normally ran every body to a normal end. *)
Lemma for_each_returns {A} (body : A → M unit) (l : list A) (st st' : state) :
  (∀ x, x ∈ l → framed (body x)) →
  for_each body l st = (Returns tt, st') →
  ∀ x st0, x ∈ l → fst (body x st0) = Returns tt.
Proof.
  revert st. induction l as [|y l IH]; intros st Hbody Hrun x st0 Hx.
  - by apply elem_of_nil in Hx.
  - rewrite for_each_cons in Hrun.
    destruct (body y st) as [[[]|e] st1] eqn:Hy; [|done].
    apply elem_of_cons in Hx as [->|Hx].
    + rewrite (framed_outcome _ st0 st) by (apply Hbody; by left).
      by rewrite Hy.
    + eapply IH; [|done..]. intros z Hz. apply Hbody. by right.
Qed.

End Frame.

(** ** The loop over the directory *)

Section Run.

Variable dirname : string.

(** One file, case by case. *)
Lemma scan_file_unfold (filename : string) (st : state) :
  scan_file dirname filename st =
  match dir st !! filename with
  | Some (RegularFile (Returns v)) => scan_cells v (set_nb (Some v) st)
  | Some (RegularFile (Raises e)) =>
      if caught e then
        match nb st with
        | Some v => scan_cells v (removed dirname filename st)
        | None => (Raises NameError, removed dirname filename st)
        end
      else (Raises e, st)
  | Some Subdirectory => (Raises IsADirectoryError, st)
  | None => (Raises FileNotFoundError, st)
  end.
Proof.
  unfold scan_file, open_rb, try_load, print2, os_remove, read_nb, removed.
  unfold_M. cbn [dir set_stdout set_dir stdout urls urls_txt nb].
  destruct (dir st !! filename) as [[[v|e]|]|] eqn:Hf; try done.
  destruct (caught e) eqn:He; [|done].
  cbn [dir set_stdout set_dir stdout urls urls_txt nb]. rewrite Hf.
  cbn [dir set_stdout set_dir stdout urls urls_txt nb].
  by destruct (nb st).
Qed.

Lemma main_unfold (listing : list string) (st : state) :
  main dirname listing st =
  match for_each (scan_file dirname) listing st with
  | (Returns _, st') =>
      (Returns tt, set_urls_txt (Some (written (sorted (urls st')))) st')
  | (Raises e, st') => (Raises e, st')
  end.
Proof. unfold main. rewrite bind_unfold. by destruct (for_each _ _ _) as [[[]|]]. Qed.

(** [urls.txt] is not touched before the final statement. *)
Lemma scan_file_urls_txt (filename : string) (st : state) :
  urls_txt (snd (scan_file dirname filename st)) = urls_txt st.
Proof.
  rewrite scan_file_unfold.
  repeat case_match; try done; by rewrite scan_cells_frame.
Qed.

Lemma scan_loop_urls_txt (listing : list string) (st : state) :
  urls_txt (snd (for_each (scan_file dirname) listing st)) = urls_txt st.
Proof.
  apply (for_each_invariant (λ st', urls_txt st' = urls_txt st)); [|done].
  intros f st1 <-. apply scan_file_urls_txt.
Qed.

(** One file that is passed without exception. *)
Lemma scan_file_step (filename : string) (st st' : state) :
  scan_file dirname filename st = (Returns tt, st') →
  nb_scanned st →
  (∀ g, loaded (dir st') g = loaded (dir st) g) ∧
  urls st' = from_option nb_urls ∅ (loaded (dir st) filename) ∪ urls st ∧
  (∀ v, loaded (dir st) filename = Some v → nb_ok v = true) ∧
  nb_scanned st'.
Proof.
  rewrite scan_file_unfold. intros Hrun Hnb.
  destruct (dir st !! filename) as [[[v|e]|]|] eqn:Hf; try done.
  - assert (loaded (dir st) filename = Some v) as Hl.
    { unfold loaded. by rewrite Hf. }
    rewrite scan_cells_frame in Hrun. injection Hrun as Hok <-.
    assert (nb_ok v = true) as Hv by (unfold nb_ok; by rewrite Hok).
    rewrite Hl. cbn. split; [done|]. split; [done|]. split.
    + by intros ? [= <-].
    + intros ? [= <-]. split; [done | set_solver].
  - destruct (caught e) eqn:He; [|done].
    assert (loaded (dir st) filename = None) as Hl.
    { unfold loaded. by rewrite Hf. }
    destruct (nb st) as [v|] eqn:Hv; [|done].
    rewrite scan_cells_frame in Hrun. injection Hrun as Hok <-.
    destruct (Hnb v Hv) as [Hvok Hvsub].
    rewrite Hl. cbn. split; [|split; [|split]].
    + intros g. unfold loaded. destruct (decide (g = filename)) as [->|Hne].
      * by rewrite lookup_delete_eq, Hf.
      * by rewrite lookup_delete_ne.
    + set_solver.
    + done.
    + intros v' Hv'. cbn in Hv'. rewrite Hv' in Hv. simplify_eq.
      split; [done | set_solver].
Qed.

(** The whole loop, when it ends without exception: the set holds what
    it held before and the URLs of the notebooks listed, and each of
    those was scanned to the end. *)
Lemma scan_loop (listing : list string) (st st' : state) :
  for_each (scan_file dirname) listing st = (Returns tt, st') →
  nb_scanned st →
  (∀ g, loaded (dir st') g = loaded (dir st) g) ∧
  (∀ u, u ∈ urls st' ↔
        u ∈ urls st ∨
        ∃ f v, f ∈ listing ∧ loaded (dir st) f = Some v ∧ u ∈ nb_urls v) ∧
  (∀ f v, f ∈ listing → loaded (dir st) f = Some v → nb_ok v = true).
Proof.
  revert st. induction listing as [|f listing IH]; intros st Hrun Hnb.
  - injection Hrun as <-. repeat split; try done.
    + by left.
    + intros [?|(f & v & Hf%elem_of_nil & _)]; done.
    + by intros f v ?%elem_of_nil.
  - rewrite for_each_cons in Hrun.
    destruct (scan_file dirname f st) as [[[]|e] st1] eqn:Hf; [|done].
    apply scan_file_step in Hf as (Hdir1 & Hurls1 & Hok1 & Hnb1); [|done].
    destruct (IH st1 Hrun Hnb1) as (Hdir & Hurls & Hok).
    split; [|split].
    + intros g. by rewrite Hdir, Hdir1.
    + intros u. rewrite Hurls, Hurls1, elem_of_union. split.
      * intros [[Hu|Hu]|(g & v & Hg & Hv & Hu)].
        -- destruct (loaded (dir st) f) as [v|] eqn:Hv; [|set_solver].
           right. exists f, v. split; [by left | done].
        -- by left.
        -- right. exists g, v. rewrite Hdir1 in Hv. split; [by right | done].
      * intros [Hu|(g & v & [->|Hg]%elem_of_cons & Hv & Hu)].
        -- by left; right.
        -- left; left. by rewrite Hv.
        -- right. exists g, v. by rewrite Hdir1.
    + intros g v [->|Hg]%elem_of_cons Hv; [by apply Hok1|].
      apply (Hok g v Hg). by rewrite Hdir1.
Qed.

Lemma nb_scanned_initial (d : gmap string entry) (old : option string) :
  nb_scanned (initial d old).
Proof. by intros v. Qed.

End Run.

(** ** What gets into the set *)

Section Shape.

(** A line leaves the state alone or adds the first match of the
    pattern on it. *)
Lemma scan_line_effect (line : json) (st : state) :
  snd (scan_line line st) = st ∨
  ∃ s url rest, line = JStr s ∧ findall s = url :: rest ∧
    scan_line line st = (Returns tt, set_urls ({[url]} ∪ urls st) st).
Proof.
  destruct line as [| b | z | f | s | l | items].
  5: { rewrite scan_line_str.
       destruct (_ && _); [|by left].
       destruct (findall s) as [|url rest] eqn:Hf; [by left|].
       right. by exists s, url, rest. }
  all: left; unfold scan_line; rewrite lift_bind; cbn [py_in]; try done.
  all: destruct (existsb _ _); cbn [negb]; [|done].
  all: rewrite lift_bind; destruct (existsb _ _); cbn [py_or];
    rewrite lift_bind; [done|].
  all: by destruct (existsb _ _).
Qed.

Lemma scan_line_shaped (line : json) (st : state) :
  urls_shaped st → urls_shaped (snd (scan_line line st)).
Proof.
  intros Hst. destruct (scan_line_effect line st) as [->|(s & url & rest & _ & Hf & ->)];
    [done|].
  intros u [->%elem_of_singleton|Hu]%elem_of_union; [|by apply Hst].
  apply (findall_shape s). rewrite Hf. by left.
Qed.

Lemma scan_cell_shaped (cell : json) (st : state) :
  urls_shaped st → urls_shaped (snd (scan_cell cell st)).
Proof.
  intros Hst. unfold scan_cell. rewrite lift_bind.
  destruct (py_getitem cell "cell_type") as [cell_type|]; [|done].
  destruct (py_ne_str cell_type "code"); [done|].
  rewrite lift_bind.
  destruct (py_getitem cell "source") as [source|]; [|done].
  destruct (py_not source); [done|].
  rewrite lift_bind. destruct (source_lines source) as [lines|]; [|done].
  apply (for_each_invariant urls_shaped); [|done].
  intros line st1. apply scan_line_shaped.
Qed.

Lemma scan_cells_shaped (v : json) (st : state) :
  urls_shaped st → urls_shaped (snd (scan_cells v st)).
Proof.
  intros Hst. unfold scan_cells. rewrite lift_bind.
  destruct (py_get v "cells") as [cells|]; [|done].
  rewrite lift_bind. destruct (py_iter cells) as [cell_list|]; [|done].
  apply (for_each_invariant urls_shaped); [|done].
  intros cell st1. apply scan_cell_shaped.
Qed.

Lemma scan_file_shaped (dirname filename : string) (st : state) :
  urls_shaped st → urls_shaped (snd (scan_file dirname filename st)).
Proof.
  intros Hst. rewrite scan_file_unfold.
  repeat case_match; try done; by apply scan_cells_shaped.
Qed.

Lemma scan_loop_shaped (dirname : string) (listing : list string) (st : state) :
  urls_shaped st → urls_shaped (snd (for_each (scan_file dirname) listing st)).
Proof.
  apply (for_each_invariant urls_shaped).
  intros f st1. apply scan_file_shaped.
Qed.

Lemma url_shape_no_newline (u : string) : url_shape u → has_newline u = false.
Proof.
  intros (scheme & c & body & -> & Hs & Hc & _ & Hb).
  rewrite has_newline_app. cbn [has_newline]. rewrite Hc, Hb.
  by destruct Hs as [-> | ->].
Qed.

Lemma url_shape_scheme (u : string) :
  url_shape u → String.prefix "http://" u = true ∨ String.prefix "https://" u = true.
Proof.
  intros (scheme & c & body & -> & [-> | ->] & _); [left | right];
    apply prefix_spec; eauto.
Qed.

End Shape.

(** ** The output *)

Section Output.

Lemma sorted_Sorted (U : gset string) : Sorted String.le (sorted U).
Proof. apply Sorted_merge_sort, _. Qed.

Lemma sorted_elem_of (U : gset string) (u : string) : u ∈ sorted U ↔ u ∈ U.
Proof. unfold sorted. by rewrite merge_sort_Permutation, elem_of_elements. Qed.

Lemma sorted_NoDup (U : gset string) : NoDup (sorted U).
Proof. unfold sorted. rewrite merge_sort_Permutation. apply NoDup_elements. Qed.

(** Reading the file back line by line gives the URLs and, behind the
    last line feed, the empty rest. *)
Lemma split_lines_written (l : list string) :
  (∀ u, u ∈ l → has_newline u = false) →
  split_lines (written l) = l ++ [EmptyString].
Proof.
  induction l as [|u l IH]; intros Hl; [done|].
  cbn [written]. unfold newline. cbn [String.append].
  rewrite split_lines_app by (apply Hl; by left).
  rewrite IH; [done|]. intros v Hv. apply Hl. by right.
Qed.

End Output.

(** ** Corrupt files *)

Section Corrupt.

(** A corrupt file is removed and reported; the cell loop that follows
    finds [nb] unbound when no file has parsed before. *)
Lemma corrupt_before_any_notebook (dirname filename : string) (e : exn) (st : state) :
  dir st !! filename = Some (RegularFile (Raises e)) →
  caught e = true →
  nb st = None →
  scan_file dirname filename st = (Raises NameError, removed dirname filename st).
Proof. intros Hf He Hnb. by rewrite scan_file_unfold, Hf, He, Hnb. Qed.

(** After a notebook has been scanned, a corrupt file is removed and
    reported, the notebook still bound to [nb] is scanned once more,
    and the set stays as it is. *)
Lemma corrupt_after_notebook (dirname filename : string) (e : exn) (v : json) (st : state) :
  dir st !! filename = Some (RegularFile (Raises e)) →
  caught e = true →
  nb st = Some v →
  nb_scanned st →
  scan_file dirname filename st = (Returns tt, removed dirname filename st).
Proof.
  intros Hf He Hv Hnb. destruct (Hnb v Hv) as [Hok Hsub].
  rewrite scan_file_unfold, Hf, He, Hv, scan_cells_frame.
  unfold nb_ok in Hok. destruct (nb_scan v).1 as [[]|]; [|done].
  f_equal. replace (nb_urls v ∪ urls (removed dirname filename st))
    with (urls (removed dirname filename st)) by (cbn; set_solver).
  apply set_urls_same.
Qed.

End Corrupt.

(** C1 (the script on a failing input): a directory whose first listed
    entry is not valid JSON.  The file is removed and the
    diagnostic is printed, but the run does not go on: the cell loop after
    the [except] clause reads the unbound [nb], the run ends with a
    [NameError], the notebook listed next is never read and no output is
    written. *)
Theorem C1_corrupt_first_entry_aborts :
  main "data" ["bad.ipynb"; "good.ipynb"] (initial corrupt_first None) =
  (Raises NameError,
   State {[ "good.ipynb" := RegularFile (Returns example_notebook) ]}
         ["removing data/bad.ipynb"] None ∅ None).
Proof. vm_compute. reflexivity. Qed.

(** ** Missing fields *)

(** C2 (counterexample): a parsed notebook with one cell that has no
    [cell_type], and one whose code cell has no [source]; either scan
    ends with a [KeyError] and the run with it. *)
Lemma C2_counterexample :
  fst (main "data" ["nb.ipynb"]
         (initial {[ "nb.ipynb" :=
                       RegularFile (Returns (notebook [JDict [("source", JStr "x = 1")]])) ]}
                  None)) = Raises KeyError ∧
  fst (main "data" ["nb.ipynb"]
         (initial {[ "nb.ipynb" :=
                       RegularFile (Returns (notebook [JDict [("cell_type", JStr "code")]])) ]}
                  None)) = Raises KeyError.
Proof. split; vm_compute; reflexivity. Qed.

(** C2 (amended): a notebook object without [cells] is scanned as if it
    had no cells: no exception, the state unchanged.  The two fields of a
    cell are read by subscript: a cell without [cell_type], and a code
    cell without [source], raise [KeyError]; a cell of another type needs
    no [source], and a code cell whose [source] is there but falsy
    ([None], empty) is skipped. *)
Theorem C2_missing_fields (nb_items cell_items : list (string * json)) (st : state) :
  (dict_lookup "cells" nb_items = None →
   scan_cells (JDict nb_items) st = (Returns tt, st)) ∧
  (dict_lookup "cell_type" cell_items = None →
   scan_cell (JDict cell_items) st = (Raises KeyError, st)) ∧
  (dict_lookup "cell_type" cell_items = Some (JStr "code") →
   dict_lookup "source" cell_items = None →
   scan_cell (JDict cell_items) st = (Raises KeyError, st)) ∧
  (∀ cell_type, dict_lookup "cell_type" cell_items = Some cell_type →
   py_ne_str cell_type "code" = true →
   dict_lookup "source" cell_items = None →
   scan_cell (JDict cell_items) st = (Returns tt, st)) ∧
  (∀ source, dict_lookup "cell_type" cell_items = Some (JStr "code") →
   dict_lookup "source" cell_items = Some source →
   py_not source = true →
   scan_cell (JDict cell_items) st = (Returns tt, st)).
Proof.
  split; [|split; [|split; [|split]]].
  - intros H. unfold scan_cells. rewrite lift_bind. cbn [py_get]. by rewrite H.
  - intros H. unfold scan_cell. rewrite lift_bind. cbn [py_getitem]. by rewrite H.
  - intros H1 H2. unfold scan_cell. rewrite lift_bind. cbn [py_getitem].
    rewrite H1. cbn [py_ne_str]. rewrite bool_decide_eq_true_2 by done.
    cbn [negb]. rewrite lift_bind. by rewrite H2.
  - intros cell_type H1 H2 _. apply (scan_cell_skip _ cell_type); [|done].
    cbn [py_getitem]. by rewrite H1.
  - intros source H1 H2 H3. rewrite (scan_cell_code _ source).
    + by rewrite H3.
    + cbn [py_getitem]. by rewrite H1.
    + cbn [py_getitem]. by rewrite H2.
Qed.

Lemma C2_missing_fields_witness :
  scan_cells (JDict [("metadata", JDict []); ("nbformat", JInt 3)]) (initial ∅ None)
    = (Returns tt, initial ∅ None) ∧
  scan_cell (JDict [("source", JStr "x = 1")]) (initial ∅ None)
    = (Raises KeyError, initial ∅ None) ∧
  scan_cell (JDict [("cell_type", JStr "code")]) (initial ∅ None)
    = (Raises KeyError, initial ∅ None) ∧
  scan_cell (JDict [("cell_type", JStr "markdown")]) (initial ∅ None)
    = (Returns tt, initial ∅ None) ∧
  scan_cell (code_cell JNull) (initial ∅ None) = (Returns tt, initial ∅ None).
Proof.
  split; [|split; [|split; [|split]]].
  - destruct (C2_missing_fields [("metadata", JDict []); ("nbformat", JInt 3)] []
                (initial ∅ None)) as (H & _).
    apply H. reflexivity.
  - destruct (C2_missing_fields [] [("source", JStr "x = 1")] (initial ∅ None))
      as (_ & H & _).
    apply H. reflexivity.
  - destruct (C2_missing_fields [] [("cell_type", JStr "code")] (initial ∅ None))
      as (_ & _ & H & _).
    apply H; reflexivity.
  - destruct (C2_missing_fields [] [("cell_type", JStr "markdown")] (initial ∅ None))
      as (_ & _ & _ & H & _).
    apply (H (JStr "markdown")); reflexivity.
  - destruct (C2_missing_fields [] [("cell_type", JStr "code"); ("source", JNull)]
                (initial ∅ None)) as (_ & _ & _ & _ & H).
    apply (H JNull); reflexivity.
Defined.

(** ** Lines that pass the filter but hold no match *)

Section Unmatched.

(** Every line of a notebook whose scan ends normally was scanned to a
    normal end. *)
Lemma nb_ok_line (v cells cell source line : json) (cell_list lines : list json) :
  nb_ok v = true →
  py_get v "cells" = Returns cells →
  py_iter cells = Returns cell_list →
  cell ∈ cell_list →
  py_getitem cell "cell_type" = Returns (JStr "code") →
  py_getitem cell "source" = Returns source →
  py_not source = false →
  source_lines source = Returns lines →
  line ∈ lines →
  ∀ st, fst (scan_line line st) = Returns tt.
Proof.
  unfold nb_ok, nb_scan, scan_cells.
  intros Hok Hcells Hiter Hcell Htype Hsource Hnot Hlines Hline st.
  rewrite lift_bind, Hcells, lift_bind, Hiter in Hok.
  destruct (for_each scan_cell cell_list (initial ∅ None)) as [[[]|e] st1] eqn:Hrun;
    [|done].
  pose proof (for_each_returns _ _ _ _ (λ c _, framed_scan_cell c) Hrun
                cell st Hcell) as Hc.
  rewrite (scan_cell_code _ source) in Hc by done.
  rewrite Hnot, Hlines in Hc.
  destruct (for_each scan_line lines st) as [[[]|e] st2] eqn:Hrun2; [|done].
  by apply (for_each_returns _ _ _ _ (λ l _, framed_scan_line l) Hrun2).
Qed.

(** A run that raises leaves [urls.txt] as it was. *)
Lemma main_raises_urls_txt (dirname : string) (listing : list string) (st : state) :
  returns (fst (main dirname listing st)) = false →
  urls_txt (snd (main dirname listing st)) = urls_txt st.
Proof.
  rewrite main_unfold. pose proof (scan_loop_urls_txt dirname listing st) as H.
  by destruct (for_each _ _ _) as [[[]|e] st1].
Qed.

End Unmatched.

(** C3: a line that holds [pd.read_csv] and a scheme, but no quote behind
    any scheme on it.  The pattern matches nowhere, so [findall] gives the
    empty list and its element 0 is an [IndexError], which the line
    raises with the state unchanged.  Nothing catches it: a run over a
    listing with a notebook in which a code cell holds such a line ends
    with an exception, and [urls.txt] is left as it was. *)
Theorem C3_no_quote_raises
    (line : string) (st : state)
    (dirname filename : string) (listing : list string) (d : gmap string entry)
    (old : option string) (k i j : nat)
    (v cells cell source : json) (cell_list lines : list json) :
  contains "pd.read_csv" line = true →
  contains "https://" line || contains "http://" line = true →
  quote_after_scheme line = false →
  findall line = [] ∧
  scan_line (JStr line) st = (Raises IndexError, st) ∧
  (listing !! k = Some filename →
   d !! filename = Some (RegularFile (Returns v)) →
   py_get v "cells" = Returns cells →
   py_iter cells = Returns cell_list →
   cell_list !! i = Some cell →
   py_getitem cell "cell_type" = Returns (JStr "code") →
   py_getitem cell "source" = Returns source →
   py_not source = false →
   source_lines source = Returns lines →
   lines !! j = Some (JStr line) →
   returns (fst (main dirname listing (initial d old))) = false ∧
   urls_txt (snd (main dirname listing (initial d old))) = old).
Proof.
  intros Hcall Hscheme Hquote.
  assert (findall line = []) as Hnone by by apply findall_from_no_quote.
  assert (∀ st', scan_line (JStr line) st' = (Raises IndexError, st')) as Hraise.
  { intros st'. by rewrite scan_line_str, Hcall, Hscheme, Hnone. }
  split; [done|]. split; [done|].
  intros Hk Hf Hcells Hiter Hi Htype Hsource Hnot Hlines Hj.
  assert (returns (fst (main dirname listing (initial d old))) = false) as Hmain.
  { rewrite main_unfold.
    destruct (for_each _ _ _) as [[[]|e] st1] eqn:Hrun; [|done].
    apply scan_loop in Hrun as (_ & _ & Hok); [|apply nb_scanned_initial].
    assert (nb_ok v = true) as Hv.
    { apply (Hok filename); [by eapply list_elem_of_lookup_2|].
      unfold loaded. cbn [initial dir]. by rewrite Hf. }
    pose proof (nb_ok_line v cells cell source (JStr line) cell_list lines Hv Hcells
                  Hiter (list_elem_of_lookup_2 _ _ _ Hi) Htype Hsource Hnot Hlines
                  (list_elem_of_lookup_2 _ _ _ Hj) st) as Hline.
    by rewrite Hraise in Hline. }
  split; [done|]. by rewrite main_raises_urls_txt.
Qed.

Lemma C3_no_quote_raises_witness :
  findall unquoted_line = [] ∧
  scan_line (JStr unquoted_line) (initial ∅ None) = (Raises IndexError, initial ∅ None) ∧
  returns (fst (main "data" ["nb.ipynb"]
                  (initial {[ "nb.ipynb" :=
                                RegularFile (Returns (notebook [code_cell (JList [JStr unquoted_line])])) ]}
                           (Some "old")))) = false ∧
  urls_txt (snd (main "data" ["nb.ipynb"]
                   (initial {[ "nb.ipynb" :=
                                 RegularFile (Returns (notebook [code_cell (JList [JStr unquoted_line])])) ]}
                            (Some "old")))) = Some "old".
Proof.
  destruct (C3_no_quote_raises unquoted_line (initial ∅ None) "data" "nb.ipynb"
              ["nb.ipynb"]
              {[ "nb.ipynb" :=
                   RegularFile (Returns (notebook [code_cell (JList [JStr unquoted_line])])) ]}
              (Some "old") 0 0 0
              (notebook [code_cell (JList [JStr unquoted_line])])
              (JList [code_cell (JList [JStr unquoted_line])])
              (code_cell (JList [JStr unquoted_line]))
              (JList [JStr unquoted_line])
              [code_cell (JList [JStr unquoted_line])]
              [JStr unquoted_line])
    as (H1 & H2 & H3).
  - reflexivity.
  - reflexivity.
  - reflexivity.
  - split; [exact H1|]. split; [exact H2|].
    apply H3; reflexivity.
Defined.

(** ** Extraction *)

(** C4: the cell whose source is the example string, and the one whose
    source is a list with one line.  The string is split at its line
    feed, the pattern stops in front of the closing quote, and the URL is
    added to the set; a source string is scanned exactly as the list of
    its lines is. *)
Theorem C4_example_extraction :
  split_lines (example_line +:+ newline) = [example_line; EmptyString] ∧
  findall example_line = ["https://example.com/data.csv"] ∧
  (∀ st, scan_cell (code_cell (JStr (example_line +:+ newline))) st =
         (Returns tt, set_urls ({["https://example.com/data.csv"]} ∪ urls st) st)) ∧
  (∀ st, scan_cell (code_cell (JList [JStr dquoted_line])) st =
         (Returns tt, set_urls ({["http://a.com/x.csv"]} ∪ urls st) st)) ∧
  (∀ s st, scan_cell (code_cell (JStr s)) st =
           scan_cell (code_cell (JList (map JStr (split_lines s)))) st).
Proof.
  split; [reflexivity|]. split; [reflexivity|]. split; [|split].
  - intros st. rewrite (scan_cell_code _ (JStr (example_line +:+ newline))) by done.
    change (py_not _) with false. cbv iota.
    change (source_lines _) with (Returns [JStr example_line; JStr EmptyString]).
    cbv beta iota. rewrite !for_each_cons, !scan_line_str.
    change (contains "pd.read_csv" example_line) with true.
    change (contains "https://" example_line) with true.
    change (findall example_line) with ["https://example.com/data.csv"].
    change (contains "pd.read_csv" EmptyString) with false.
    done.
  - intros st. rewrite (scan_cell_code _ (JList [JStr dquoted_line])) by done.
    change (py_not _) with false. cbn [source_lines py_iter].
    cbv beta iota. rewrite !for_each_cons, !scan_line_str.
    change (contains "pd.read_csv" dquoted_line) with true.
    change (contains "https://" dquoted_line) with false.
    change (contains "http://" dquoted_line) with true.
    change (findall dquoted_line) with ["http://a.com/x.csv"].
    done.
  - intros s st.
    rewrite (scan_cell_code _ (JStr s)) by done.
    rewrite (scan_cell_code _ (JList (map JStr (split_lines s)))) by done.
    cbn [source_lines py_iter].
    destruct s as [|c s]; cbn [py_not].
    + by cbn.
    + destruct (map JStr (split_lines (String c s))) eqn:Hs; [|done].
      apply fmap_nil_inv in Hs. by apply split_lines_nonempty in Hs.
Qed.

(** C5: a line that passes both substring checks and on which the
    pattern matches adds exactly one URL, element 0 of the list that
    [findall] returns, however many further matches that list holds; it
    is the match at the leftmost position at which the pattern matches. *)
Theorem C5_first_match_only (line url : string) (rest : list string) (st : state) :
  contains "pd.read_csv" line = true →
  contains "https://" line || contains "http://" line = true →
  findall line = url :: rest →
  scan_line (JStr line) st = (Returns tt, set_urls ({[url]} ∪ urls st) st) ∧
  ∃ pre suf,
    line = pre +:+ suf ∧ match_here suf = Some url ∧
    ∀ pre' suf', line = pre' +:+ suf' →
      String.length pre' < String.length pre → match_here suf' = None.
Proof.
  intros Hcall Hscheme Hf. split.
  - by rewrite scan_line_str, Hcall, Hscheme, Hf.
  - by apply (findall_head_leftmost _ _ rest).
Qed.

Lemma C5_first_match_only_witness :
  findall two_urls_line = ["http://a.com/x.csv"; "https://b.org/y.csv"] ∧
  scan_line (JStr two_urls_line) (initial ∅ (Some "old")) =
  (Returns tt, State ∅ [] (Some "old") ({["http://a.com/x.csv"]} ∪ ∅) None).
Proof.
  split; [reflexivity|].
  apply (C5_first_match_only two_urls_line "http://a.com/x.csv" ["https://b.org/y.csv"]
           (initial ∅ (Some "old"))); reflexivity.
Defined.

(** ** The filters *)

(** C6: a line without [pd.read_csv], or with neither [https://] nor
    [http://], is skipped: it ends normally and leaves the state, and so
    the set, as it is. *)
Theorem C6_line_filter (line : string) (st : state) :
  contains "pd.read_csv" line = false ∨
  (contains "https://" line = false ∧ contains "http://" line = false) →
  scan_line (JStr line) st = (Returns tt, st).
Proof.
  intros [H | [H1 H2]]; rewrite scan_line_str.
  - by rewrite H.
  - by rewrite H1, H2, andb_false_r.
Qed.

Lemma C6_line_filter_witness :
  scan_line (JStr "df = pd.read_csv('data/local.csv')") (initial ∅ None) =
  (Returns tt, initial ∅ None).
Proof.
  apply (C6_line_filter "df = pd.read_csv('data/local.csv')" (initial ∅ None)).
  right. split; reflexivity.
Defined.

(** C7: a cell whose [cell_type] is not the string [code] is skipped
    before its [source] is read: it ends normally and leaves the state,
    and so the set, as it is, whatever the source holds. *)
Theorem C7_non_code_cell_skipped (cell cell_type : json) (st : state) :
  py_getitem cell "cell_type" = Returns cell_type →
  py_ne_str cell_type "code" = true →
  scan_cell cell st = (Returns tt, st).
Proof. apply scan_cell_skip. Qed.

Lemma C7_non_code_cell_skipped_witness :
  scan_cell (markdown_cell (JStr example_line)) (initial ∅ None) =
  (Returns tt, initial ∅ None).
Proof.
  apply (C7_non_code_cell_skipped (markdown_cell (JStr example_line)) (JStr "markdown")
           (initial ∅ None)); reflexivity.
Defined.

(** ** The output file *)

Section Final.

Variable dirname : string.
Variable listing : list string.
Variable d : gmap string entry.
Variable old : option string.

(** A run that ends normally: what the loop left in the set and what the
    last statement wrote. *)
Lemma main_returns :
  fst (main dirname listing (initial d old)) = Returns tt →
  ∃ st', for_each (scan_file dirname) listing (initial d old) = (Returns tt, st') ∧
         snd (main dirname listing (initial d old)) =
         set_urls_txt (Some (written (sorted (urls st')))) st'.
Proof.
  rewrite main_unfold.
  destruct (for_each _ _ _) as [[[]|e] st'] eqn:Hrun; [|done].
  intros _. by exists st'.
Qed.

Lemma main_urls (u : string) :
  fst (main dirname listing (initial d old)) = Returns tt →
  u ∈ urls (snd (main dirname listing (initial d old))) ↔
  ∃ f v, f ∈ listing ∧ loaded d f = Some v ∧ u ∈ nb_urls v.
Proof.
  intros (st' & Hrun & ->)%main_returns.
  apply scan_loop in Hrun as (_ & Hurls & _); [|apply nb_scanned_initial].
  cbn. rewrite Hurls. cbn. set_solver.
Qed.

Lemma main_shaped :
  urls_shaped (snd (main dirname listing (initial d old))).
Proof.
  rewrite main_unfold.
  pose proof (scan_loop_shaped dirname listing (initial d old)) as H.
  destruct (for_each _ _ _) as [[[]|e] st']; apply H; by intros u ?%elem_of_empty.
Qed.

End Final.

(** C8: when the run ends normally, [urls.txt] holds, whatever it held
    before, the lines of a list that is sorted by the order of strings,
    has no duplicates, and has as its elements exactly the URLs of the
    notebooks listed; each URL is followed by a line feed and holds none,
    so reading the file back line by line gives that list. *)
Theorem C8_output_sorted_distinct
    (dirname : string) (listing : list string) (d : gmap string entry)
    (old : option string) :
  fst (main dirname listing (initial d old)) = Returns tt →
  ∃ out,
    urls_txt (snd (main dirname listing (initial d old))) = Some (written out) ∧
    out = sorted (urls (snd (main dirname listing (initial d old)))) ∧
    Sorted String.le out ∧
    NoDup out ∧
    (∀ u, u ∈ out ↔ ∃ f v, f ∈ listing ∧ loaded d f = Some v ∧ u ∈ nb_urls v) ∧
    split_lines (written out) = out ++ [EmptyString].
Proof.
  intros Hret. pose proof (main_shaped dirname listing d old) as Hshape.
  pose proof (λ u, main_urls dirname listing d old u Hret) as Hurls.
  destruct (main_returns _ _ _ _ Hret) as (st' & _ & Hmain).
  exists (sorted (urls (snd (main dirname listing (initial d old))))).
  split; [by rewrite Hmain|]. split; [done|].
  split; [apply sorted_Sorted|]. split; [apply sorted_NoDup|]. split.
  - intros u. by rewrite sorted_elem_of, Hurls.
  - apply split_lines_written. intros u Hu%sorted_elem_of.
    by apply url_shape_no_newline, Hshape.
Qed.

Lemma C8_output_sorted_distinct_witness :
  ∃ out,
    urls_txt (snd (main "data" ["za.ipynb"; "one.ipynb"; "two.ipynb"]
                     (initial three_notebooks (Some "stale")))) = Some (written out) ∧
    out = ["https://a.com/b.csv"; "https://dup.example.com/d.csv"; "https://z.com/a.csv"].
Proof.
  destruct (C8_output_sorted_distinct "data" ["za.ipynb"; "one.ipynb"; "two.ipynb"]
              three_notebooks (Some "stale")) as (out & Hout & Heq & _).
  - vm_compute. reflexivity.
  - exists out. split; [exact Hout|]. rewrite Heq. vm_compute. reflexivity.
Defined.

(** C9 (counterexample): the pattern asks for at least one character
    behind the scheme and takes whatever stands there.  On a line that
    builds the URL by concatenation that character is the quote closing
    the scheme literal: the run ends normally and writes a URL that holds
    a quote. *)
Lemma C9_counterexample :
  main "data" ["nb.ipynb"]
    (initial {[ "nb.ipynb" :=
                  RegularFile (Returns (notebook [code_cell (JStr concatenated_line)])) ]}
             None) =
  (Returns tt,
   State {[ "nb.ipynb" :=
              RegularFile (Returns (notebook [code_cell (JStr concatenated_line)])) ]}
         [] (Some (written ["http://'+host+"])) {["http://'+host+"]}
         (Some (notebook [code_cell (JStr concatenated_line)]))) ∧
  has_quote "http://'+host+" = true.
Proof. split; vm_compute; reflexivity. Qed.

(** C9 (amended): when the run ends normally, every URL written begins
    with [http://] or [https://]; behind the scheme comes one character
    that is not a line feed, then a body without quote and without line
    feed: a quote can stand directly behind the scheme and nowhere else. *)
Theorem C9_written_url_shape
    (dirname : string) (listing : list string) (d : gmap string entry)
    (old : option string) :
  fst (main dirname listing (initial d old)) = Returns tt →
  ∃ out,
    urls_txt (snd (main dirname listing (initial d old))) = Some (written out) ∧
    out = sorted (urls (snd (main dirname listing (initial d old)))) ∧
    ∀ u, u ∈ out →
      (String.prefix "http://" u = true ∨ String.prefix "https://" u = true) ∧
      ∃ scheme c body,
        u = scheme +:+ String c body ∧
        (scheme = "http://" ∨ scheme = "https://") ∧
        is_newline c = false ∧ has_quote body = false ∧ has_newline body = false.
Proof.
  intros Hret. pose proof (main_shaped dirname listing d old) as Hshape.
  destruct (main_returns _ _ _ _ Hret) as (st' & _ & Hmain).
  exists (sorted (urls (snd (main dirname listing (initial d old))))).
  split; [by rewrite Hmain|]. split; [done|].
  intros u Hu%sorted_elem_of. split; [|by apply Hshape].
  by apply url_shape_scheme, Hshape.
Qed.

Lemma C9_written_url_shape_witness :
  ∃ out,
    urls_txt (snd (main "data" ["za.ipynb"; "one.ipynb"; "two.ipynb"]
                     (initial three_notebooks None))) = Some (written out) ∧
    out = sorted (urls (snd (main "data" ["za.ipynb"; "one.ipynb"; "two.ipynb"]
                              (initial three_notebooks None)))) ∧
    ∀ u, u ∈ out →
      (String.prefix "http://" u = true ∨ String.prefix "https://" u = true) ∧
      ∃ scheme c body,
        u = scheme +:+ String c body ∧
        (scheme = "http://" ∨ scheme = "https://") ∧
        is_newline c = false ∧ has_quote body = false ∧ has_newline body = false.
Proof.
  apply (C9_written_url_shape "data" ["za.ipynb"; "one.ipynb"; "two.ipynb"]
           three_notebooks None).
  vm_compute. reflexivity.
Defined.

(** ** Order of enumeration *)

(** C10: two runs over the same directory, its entries listed in two
    orders, under any directory name and over any earlier [urls.txt]: if
    both end normally, they leave the same contents in [urls.txt]. *)
Theorem C10_order_independent
    (dirname1 dirname2 : string) (listing1 listing2 : list string)
    (d : gmap string entry) (old1 old2 : option string) :
  listing1 ≡ₚ listing2 →
  fst (main dirname1 listing1 (initial d old1)) = Returns tt →
  fst (main dirname2 listing2 (initial d old2)) = Returns tt →
  urls_txt (snd (main dirname1 listing1 (initial d old1))) =
  urls_txt (snd (main dirname2 listing2 (initial d old2))).
Proof.
  intros Hperm Hret1 Hret2.
  assert (urls (snd (main dirname1 listing1 (initial d old1))) =
          urls (snd (main dirname2 listing2 (initial d old2)))) as Hurls.
  { apply set_eq. intros u. rewrite !main_urls by done.
    by setoid_rewrite Hperm. }
  destruct (main_returns _ _ _ _ Hret1) as (st1 & _ & H1).
  destruct (main_returns _ _ _ _ Hret2) as (st2 & _ & H2).
  rewrite H1, H2 in *. cbn in *. by rewrite Hurls.
Qed.

Lemma C10_order_independent_witness :
  urls_txt (snd (main "data" ["one.ipynb"; "broken.ipynb"; "za.ipynb"]
                   (initial mixed_directory None))) =
  urls_txt (snd (main "notebooks/" ["za.ipynb"; "one.ipynb"; "broken.ipynb"]
                   (initial mixed_directory (Some "stale")))).
Proof.
  apply (C10_order_independent "data" "notebooks/"
           ["one.ipynb"; "broken.ipynb"; "za.ipynb"]
           ["za.ipynb"; "one.ipynb"; "broken.ipynb"] mixed_directory None (Some "stale")).
  - apply (bool_decide_unpack _). vm_compute. exact I.
  - vm_compute. reflexivity.
  - vm_compute. reflexivity.
Defined.

(** ** More on the pattern and on lines *)

Section PatternComplete.

Lemma match_scheme_app (scheme rest : string) :
  scheme = "http://" ∨ scheme = "https://" →
  match_scheme (scheme +:+ rest) = Some (scheme, rest).
Proof. intros [-> | ->]; by destruct rest. Qed.

Lemma lazy_until_quote_app (body rest : string) (qc : Ascii.ascii) :
  has_quote body = false → has_newline body = false → is_quote qc = true →
  lazy_until_quote (body +:+ String qc rest) = Some body.
Proof.
  intros Hq Hn Hqc. induction body as [|c body IH]; simpl.
  - by rewrite Hqc.
  - simpl in Hq, Hn. apply orb_false_iff in Hq as [Hc Hq].
    apply orb_false_iff in Hn as [Hc' Hn]. by rewrite Hc, Hc', IH.
Qed.

Lemma match_here_app (scheme body rest : string) (c qc : Ascii.ascii) :
  scheme = "http://" ∨ scheme = "https://" →
  is_newline c = false → has_quote body = false → has_newline body = false →
  is_quote qc = true →
  match_here ((scheme +:+ String c body) +:+ String qc rest) =
  Some (scheme +:+ String c body).
Proof.
  intros Hs Hc Hq Hn Hqc. unfold match_here.
  rewrite append_assoc, (match_scheme_app _ _ Hs). simpl.
  by rewrite Hc, lazy_until_quote_app.
Qed.

(** A match found anywhere on the line shows in the result list. *)
Lemma findall_from_skip_none (pre suf : string) :
  (∀ a b, pre = a +:+ b → b ≠ EmptyString → match_here (b +:+ suf) = None) →
  findall_from 0 (pre +:+ suf) = findall_from 0 suf.
Proof.
  induction pre as [|c pre IH]; intros Hnone; [done|].
  simpl. change (String c (pre +:+ suf)) with (String c pre +:+ suf).
  rewrite (Hnone EmptyString (String c pre)) by done.
  apply IH. intros a b -> Hb. by apply (Hnone (String c a) b).
Qed.

Lemma findall_from_here (s url : string) :
  match_here s = Some url → ∃ rest, findall_from 0 s = url :: rest.
Proof.
  intros Hm. destruct s as [|c s]; [done|].
  cbn [findall_from]. rewrite Hm. eauto.
Qed.

Lemma findall_nil_iff (line : string) :
  findall line = [] ↔ ∀ pre suf, line = pre +:+ suf → match_here suf = None.
Proof.
  split.
  - unfold findall. revert line.
    assert (∀ line, findall_from 0 line = [] → match_here line = None) as Hhead.
    { intros [|c s]; [done|]. cbn [findall_from].
      by destruct (match_here (String c s)). }
    intros line Hnil pre. revert line Hnil.
    induction pre as [|c pre IH]; intros line Hnil suf ->; [by apply Hhead|].
    apply (IH (pre +:+ suf)); [|done].
    pose proof (Hhead _ Hnil) as Hh. simpl in Hnil.
    change (String c (pre +:+ suf)) with (String c pre +:+ suf) in Hnil.
    by rewrite Hh in Hnil.
  - intros Hnone. destruct (findall line) as [|url rest] eqn:Hf; [done|].
    apply findall_head_leftmost in Hf as (pre & suf & Hl & Hm & _).
    by rewrite (Hnone pre suf Hl) in Hm.
Qed.

(** In front of a text that starts with [http], a text without [http]
    holds no start of a scheme. *)
Lemma no_scheme_before (pre b rest : string) :
  contains "http" pre = false →
  (∃ a, pre = a +:+ b) → b ≠ EmptyString →
  match_scheme (b +:+ "http" +:+ rest) = None.
Proof.
  intros Hpre [a ->] Hb.
  assert (String.prefix "http" (b +:+ "http" +:+ rest) = false) as Hno.
  { destruct (String.prefix "http" (b +:+ "http" +:+ rest)) eqn:Hp; [|done].
    assert (contains "http" b = false) as Hcb.
    { destruct (contains "http" b) eqn:Hc; [|done].
      apply contains_spec in Hc as (x & y & ->).
      assert (contains "http" (a +:+ x +:+ "http" +:+ y) = true) as Ht; [|congruence].
      apply contains_spec. exists (a +:+ x), y. by rewrite !append_assoc. }
    apply prefix_spec in Hp as [t Ht].
    destruct b as [|c1 [|c2 [|c3 [|c4 b]]]]; [done|..]; simplify_eq/=.
    assert (contains "http" ("http" +:+ b) = true) as Hc; [|simpl in Hc; congruence].
    apply contains_spec. by exists EmptyString, b. }
  unfold match_scheme.
  destruct (String.prefix "https://" _) eqn:H1.
  { apply prefix_spec in H1 as [t Ht].
    assert (String.prefix "http" (b +:+ "http" +:+ rest) = true); [|congruence].
    apply prefix_spec. exists ("s://" +:+ t). by rewrite Ht. }
  destruct (String.prefix "http://" _) eqn:H2; [|done].
  apply prefix_spec in H2 as [t Ht].
  assert (String.prefix "http" (b +:+ "http" +:+ rest) = true); [|congruence].
  apply prefix_spec. exists ("://" +:+ t). by rewrite Ht.
Qed.

End PatternComplete.

(** X11: the pattern, exactly: it matches at the start of a text when the text
    is a scheme, one character that is not a line feed, a run free of
    quotes and line feeds, and a quote; the group is what stands in front
    of that quote. *)
Theorem match_here_iff (s url : string) :
  match_here s = Some url ↔
  ∃ scheme c body qc rest,
    (scheme = "http://" ∨ scheme = "https://") ∧
    is_newline c = false ∧ has_quote body = false ∧ has_newline body = false ∧
    is_quote qc = true ∧
    url = scheme +:+ String c body ∧ s = url +:+ String qc rest.
Proof.
  split.
  - intros Hm. apply match_here_spec in Hm
      as ((scheme & c & body & -> & Hs & Hc & Hq & Hn) & qc & rest & Hqc & ->).
    by exists scheme, c, body, qc, rest.
  - intros (scheme & c & body & qc & rest & Hs & Hc & Hq & Hn & Hqc & -> & ->).
    by apply match_here_app.
Qed.

(** X8: a URL written as a quoted literal is recovered as it stands: on a
    line that holds [pd.read_csv], whose text in front of the URL holds
    no [http], the URL up to its closing quote is what the line adds,
    whatever follows the quote. *)
Theorem quoted_url_extracted
    (pre scheme body post : string) (c qc : Ascii.ascii) (st : state) :
  contains "http" pre = false →
  contains "pd.read_csv" (pre +:+ (scheme +:+ String c body) +:+ String qc post) = true →
  scheme = "http://" ∨ scheme = "https://" →
  is_newline c = false → has_quote body = false → has_newline body = false →
  is_quote qc = true →
  scan_line (JStr (pre +:+ (scheme +:+ String c body) +:+ String qc post)) st =
  (Returns tt, set_urls ({[scheme +:+ String c body]} ∪ urls st) st).
Proof.
  intros Hpre Hcall Hs Hc Hq Hn Hqc.
  set (url := scheme +:+ String c body) in *.
  assert (match_here (url +:+ String qc post) = Some url) as Hm
    by by apply match_here_app.
  assert (∃ tail, url +:+ String qc post = "http" +:+ tail) as [tail Htail].
  { unfold url. destruct Hs as [-> | ->]; eexists; rewrite !append_assoc; reflexivity. }
  assert (∃ rest, findall (pre +:+ url +:+ String qc post) = url :: rest) as [rest Hf].
  { unfold findall. rewrite findall_from_skip_none; [by apply findall_from_here|].
    intros a b -> Hb. unfold match_here. rewrite Htail.
    by rewrite (no_scheme_before (a +:+ b) b tail) by eauto. }
  assert (contains "https://" (pre +:+ url +:+ String qc post)
          || contains "http://" (pre +:+ url +:+ String qc post) = true) as Hscheme.
  { apply orb_true_iff. unfold url.
    destruct Hs as [-> | ->]; [right | left]; apply contains_spec;
      exists pre; eexists; rewrite !append_assoc; reflexivity. }
  by rewrite scan_line_str, Hcall, Hscheme, Hf.
Qed.

Lemma quoted_url_extracted_witness :
  scan_line (JStr ("frame = pd.read_csv(" +:+ String DQUOTE "https://example.org/t.csv"
                   +:+ String DQUOTE ", sep=';')" +:+ newline))
            (initial ∅ None) =
  (Returns tt, State ∅ [] None ({["https://example.org/t.csv"]} ∪ ∅) None).
Proof.
  apply (quoted_url_extracted ("frame = pd.read_csv(" +:+ String DQUOTE EmptyString)
           "https://" "xample.org/t.csv" (", sep=';')" +:+ newline) "e" DQUOTE
           (initial ∅ None)).
  - reflexivity.
  - reflexivity.
  - right. reflexivity.
  - reflexivity.
  - reflexivity.
  - reflexivity.
  - reflexivity.
Defined.

(** X9: when a string line raises: it never raises anything but the
    [IndexError] of the empty match list, and it raises exactly when it
    passes both substring checks and the pattern matches at no position
    of it. *)
Theorem line_raises_iff (line : string) (st : state) :
  (returns (fst (scan_line (JStr line) st)) = false ↔
   contains "pd.read_csv" line = true ∧
   contains "https://" line || contains "http://" line = true ∧
   ∀ pre suf, line = pre +:+ suf → match_here suf = None) ∧
  (returns (fst (scan_line (JStr line) st)) = false →
   scan_line (JStr line) st = (Raises IndexError, st)).
Proof.
  rewrite scan_line_str, <- findall_nil_iff.
  destruct (contains "pd.read_csv" line); cbn [andb].
  2: { split; [|done]. split; [done | by intros (? & _)]. }
  destruct (_ || _); cbn [andb].
  2: { split; [|done]. split; [done | by intros (_ & ? & _)]. }
  destruct (findall line) as [|url rest]; cbn.
  - split; [|done]. split; [done | by intros (_ & _ & ?)].
  - split; [|done]. split; [done | by intros (_ & _ & ?)].
Qed.

Lemma non_string_line_effect (line : json) (st : state) :
  is_str line = false →
  snd (scan_line line st) = st ∧
  (fst (scan_line line st) = Returns tt ∨ fst (scan_line line st) = Raises TypeError).
Proof.
  intros Hstr. destruct line as [| b | z | f | s | l | items]; try done.
  all: unfold scan_line; rewrite lift_bind; cbn [py_in]; auto.
  all: destruct (existsb _ _); cbn [negb]; [|auto].
  all: rewrite lift_bind; destruct (existsb _ _); cbn [py_or];
    rewrite lift_bind; [auto|].
  all: destruct (existsb _ _); auto.
Qed.

(** X10: a line that is not a string (an element of a list source that is a
    number, [None], a list, a dict) never adds a URL: it is skipped or
    ends in a [TypeError], the state unchanged. *)
Theorem non_string_line (line : json) (st : state) :
  is_str line = false →
  snd (scan_line line st) = st ∧
  (fst (scan_line line st) = Returns tt ∨ fst (scan_line line st) = Raises TypeError).
Proof. apply non_string_line_effect. Qed.

Lemma non_string_line_witness :
  snd (scan_line (JList [JStr "pd.read_csv"; JStr "http://"]) (initial ∅ None)) =
    initial ∅ None ∧
  (fst (scan_line (JList [JStr "pd.read_csv"; JStr "http://"]) (initial ∅ None)) =
     Returns tt ∨
   fst (scan_line (JList [JStr "pd.read_csv"; JStr "http://"]) (initial ∅ None)) =
     Raises TypeError).
Proof.
  apply (non_string_line (JList [JStr "pd.read_csv"; JStr "http://"]) (initial ∅ None)).
  reflexivity.
Defined.

(** X12: splitting at the line feed loses nothing: the pieces hold no line
    feed, and joined by line feeds they give the text back. *)
Theorem split_lines_join (s : string) :
  String.concat newline (split_lines s) = s ∧
  Forall (λ piece, has_newline piece = false) (split_lines s).
Proof.
  induction s as [|c s [IHjoin IHfree]]; [by repeat constructor|].
  cbn [split_lines]. destruct (is_newline c) eqn:Hc.
  - apply bool_decide_eq_true in Hc as ->. split; [|by constructor].
    destruct (split_lines s) as [|h r] eqn:Hs; [by apply split_lines_nonempty in Hs|].
    change (String.concat newline (EmptyString :: h :: r))
      with (String LF (String.concat newline (h :: r))).
    by rewrite IHjoin.
  - destruct (split_lines s) as [|h r] eqn:Hs; [by apply split_lines_nonempty in Hs|].
    split.
    + rewrite <- IHjoin. by destruct r.
    + apply Forall_cons in IHfree as [Hh Hr]. constructor; [|done].
      simpl. by rewrite Hc, Hh.
Qed.

(** ** Whole runs: what is removed, what is printed, when a run ends normally *)

Section Ledger.

Variable dirname : string.

Lemma corrupt_delete (d : gmap string entry) (f g : string) :
  corrupt (delete f d) g = true → corrupt d g = true ∧ g ≠ f.
Proof.
  unfold corrupt. destruct (decide (g = f)) as [->|Hne].
  - by rewrite lookup_delete_eq.
  - by rewrite lookup_delete_ne.
Qed.


(** What one file does to the directory and to standard output, however
    its scan ends. *)
Lemma scan_file_ledger (filename : string) (st : state) :
  (corrupt (dir st) filename = true ∧
   dir (snd (scan_file dirname filename st)) = delete filename (dir st) ∧
   stdout (snd (scan_file dirname filename st)) =
     stdout st ++ [diagnostic dirname filename]) ∨
  (corrupt (dir st) filename = false ∧
   dir (snd (scan_file dirname filename st)) = dir st ∧
   stdout (snd (scan_file dirname filename st)) = stdout st).
Proof.
  rewrite scan_file_unfold. unfold corrupt.
  destruct (dir st !! filename) as [[[v|e]|]|]; [|destruct (caught e)|..].
  - right. by rewrite scan_cells_frame.
  - left. destruct (nb st); [by rewrite scan_cells_frame | done].
  - by right.
  - by right.
  - by right.
Qed.

Lemma scan_loop_ledger (listing : list string) (st : state) :
  ∃ R,
    R `sublist_of` listing ∧
    stdout (snd (for_each (scan_file dirname) listing st)) =
      stdout st ++ (diagnostic dirname <$> R) ∧
    (∀ g, dir (snd (for_each (scan_file dirname) listing st)) !! g =
          if bool_decide (g ∈ R) then None else dir st !! g) ∧
    Forall (λ f, corrupt (dir st) f = true) R ∧
    (fst (for_each (scan_file dirname) listing st) = Returns tt →
     ∀ f, f ∈ listing → corrupt (dir st) f = true → f ∈ R).
Proof.
  revert st. induction listing as [|f listing IH]; intros st.
  { exists []. cbn. split; [done|]. split; [by rewrite app_nil_r|].
    split; [done|]. split; [done|]. by intros _ f ?%elem_of_nil. }
  rewrite for_each_cons.
  pose proof (scan_file_ledger f st) as Hf.
  destruct (scan_file dirname f st) as [[[]|e] st1]; cbn [fst snd] in *.
  - destruct (IH st1) as (R & Hsub & Hout & Hdir & Hcor & Hall).
    destruct Hf as [(Hc & Hd1 & Ho1) | (Hc & Hd1 & Ho1)].
    + exists (f :: R). split; [by apply sublist_skip|].
      split; [by rewrite Hout, Ho1, <- app_assoc|]. split; [|split].
      * intros g. rewrite Hdir, Hd1.
        destruct (decide (g = f)) as [->|Hne].
        -- rewrite lookup_delete_eq, (bool_decide_eq_true_2 (f ∈ f :: R)) by by left.
           by case_bool_decide.
        -- rewrite lookup_delete_ne by done.
           assert (g ∈ f :: R ↔ g ∈ R) as Hiff by set_solver.
           by repeat case_bool_decide; try done; tauto.
      * constructor; [done|]. eapply Forall_impl; [exact Hcor|].
        intros g Hg. rewrite Hd1 in Hg. by apply corrupt_delete in Hg as [? _].
      * intros Hret g [->|Hg]%elem_of_cons Hcg; [by left|].
        destruct (decide (g = f)) as [->|Hne]; [by left|]. right.
        apply (Hall Hret g Hg). rewrite Hd1. unfold corrupt in *.
        by rewrite lookup_delete_ne.
    + exists R. split; [by apply sublist_cons|].
      split; [by rewrite Hout, Ho1|]. split; [|split].
      * intros g. by rewrite Hdir, Hd1.
      * by rewrite Hd1 in Hcor.
      * intros Hret g [->|Hg]%elem_of_cons Hcg; [congruence|].
        apply (Hall Hret g Hg). by rewrite Hd1.
  - destruct Hf as [(Hc & Hd1 & Ho1) | (Hc & Hd1 & Ho1)].
    + exists [f]. split; [by apply sublist_skip, sublist_nil_l|].
      split; [done|]. split; [|split; [by repeat constructor | done]].
      intros g. rewrite Hd1. destruct (decide (g = f)) as [->|Hne].
      * rewrite lookup_delete_eq. by rewrite bool_decide_eq_true_2 by by left.
      * rewrite lookup_delete_ne by done.
        by rewrite bool_decide_eq_false_2 by set_solver.
    + exists []. split; [apply sublist_nil_l|].
      split; [by rewrite app_nil_r|]. split; [|split; [done | done]].
      intros g. by rewrite Hd1.
Qed.



(** A listing of notebooks that all parse and scan to the end. *)
Lemma scan_loop_all_parse (listing : list string) (st : state) :
  (∀ f, f ∈ listing → ∃ v, loaded (dir st) f = Some v ∧ nb_ok v = true) →
  fst (for_each (scan_file dirname) listing st) = Returns tt.
Proof.
  revert st. induction listing as [|f listing IH]; intros st Hall; [done|].
  rewrite for_each_cons, scan_file_unfold.
  destruct (Hall f (list_elem_of_here _ _)) as (v & Hv & Hok).
  unfold loaded in Hv. destruct (dir st !! f) as [[[v'|]|]|]; simplify_eq.
  rewrite scan_cells_frame. unfold nb_ok in Hok.
  destruct (nb_scan v).1 as [[]|]; [|done].
  apply IH. intros g Hg. by apply Hall; right.
Qed.

End Ledger.

Section WholeRun.

Variable dirname : string.
Variable listing : list string.
Variable d : gmap string entry.
Variable old : option string.

(** The last statement changes neither the directory nor standard
    output, and the run ends as the loop does. *)
Lemma main_loop :
  fst (main dirname listing (initial d old)) =
    fst (for_each (scan_file dirname) listing (initial d old)) ∧
  dir (snd (main dirname listing (initial d old))) =
    dir (snd (for_each (scan_file dirname) listing (initial d old))) ∧
  stdout (snd (main dirname listing (initial d old))) =
    stdout (snd (for_each (scan_file dirname) listing (initial d old))).
Proof.
  rewrite main_unfold. by destruct (for_each _ _ _) as [[[]|e] st'].
Qed.

End WholeRun.



Lemma main_urls_txt
    (dirname : string) (listing : list string) (d : gmap string entry)
    (old : option string) :
  urls_txt (snd (main dirname listing (initial d old))) =
  if returns (fst (main dirname listing (initial d old)))
  then Some (written (sorted (urls (snd (main dirname listing (initial d old))))))
  else old.
Proof.
  destruct (returns _) eqn:Hret.
  - destruct (fst (main dirname listing (initial d old))) as [[]|] eqn:Hf; [|done].
    destruct (main_returns _ _ _ _ Hf) as (st' & _ & ->). done.
  - by rewrite main_raises_urls_txt.
Qed.


Lemma main_ledger
    (dirname : string) (listing : list string) (d : gmap string entry)
    (old : option string) :
  ∃ R,
    R `sublist_of` listing ∧
    stdout (snd (main dirname listing (initial d old))) = (diagnostic dirname <$> R) ∧
    (∀ g, dir (snd (main dirname listing (initial d old))) !! g =
          if bool_decide (g ∈ R) then None else d !! g) ∧
    Forall (λ f, corrupt d f = true) R ∧
    (fst (main dirname listing (initial d old)) = Returns tt →
     ∀ f, f ∈ listing → corrupt d f = true → f ∈ R).
Proof.
  destruct (main_loop dirname listing d old) as (-> & -> & ->).
  destruct (scan_loop_ledger dirname listing (initial d old))
    as (R & Hsub & Hout & Hdir & Hcor & Hall).
  by exists R.
Qed.


(** X4: notebooks without a matching line: when every listed entry is a
    notebook that is scanned to the end and yields no URL, the run ends
    normally, removes and prints nothing, and leaves [urls.txt] empty,
    whatever it held before. *)
Theorem nothing_found
    (dirname : string) (listing : list string) (d : gmap string entry)
    (old : option string) :
  forallb (yields_nothing d) listing = true →
  fst (main dirname listing (initial d old)) = Returns tt ∧
  dir (snd (main dirname listing (initial d old))) = d ∧
  stdout (snd (main dirname listing (initial d old))) = [] ∧
  urls (snd (main dirname listing (initial d old))) = ∅ ∧
  urls_txt (snd (main dirname listing (initial d old))) = Some EmptyString.
Proof.
  rewrite forallb_forall. setoid_rewrite <- list_elem_of_In. intros Hall.
  assert (∀ f, f ∈ listing →
            ∃ v, loaded d f = Some v ∧ nb_ok v = true ∧ nb_urls v = ∅) as Hall'.
  { intros f Hf. specialize (Hall f Hf). unfold yields_nothing in Hall.
    destruct (loaded d f) as [v|]; [|done].
    apply andb_true_iff in Hall as [Hok Hempty%bool_decide_eq_true]. eauto. }
  assert (fst (main dirname listing (initial d old)) = Returns tt) as Hret.
  { destruct (main_loop dirname listing d old) as (-> & _).
    apply scan_loop_all_parse. intros f Hf.
    destruct (Hall' f Hf) as (v & ? & ? & _). eauto. }
  assert (urls (snd (main dirname listing (initial d old))) = ∅) as Hurls.
  { apply set_eq. intros u. rewrite main_urls by done. split; [|set_solver].
    intros (f & v & Hf & Hv & Hu). destruct (Hall' f Hf) as (v' & Hv' & _ & Hempty).
    rewrite Hv in Hv'. simplify_eq. by rewrite Hempty in Hu. }
  destruct (main_ledger dirname listing d old) as (R & Hsub & Hout & Hdir & Hcor & _).
  assert (R = []) as ->.
  { destruct R as [|f R]; [done|]. apply Forall_cons in Hcor as [Hc _].
    assert (f ∈ listing) as Hf by (eapply sublist_subseteq; [done | by left]).
    destruct (Hall' f Hf) as (v & Hv & _). unfold corrupt in Hc. unfold loaded in Hv.
    by destruct (d !! f) as [[[|]|]|]. }
  split; [done|]. split; [by apply map_eq|]. split; [done|]. split; [done|].
  rewrite main_urls_txt, Hret, Hurls. cbn. unfold sorted.
  by rewrite elements_empty.
Qed.

Lemma nothing_found_witness :
  fst (main "data" ["old_format.ipynb"; "plots.ipynb"]
         (initial quiet_directory (Some "stale"))) = Returns tt ∧
  dir (snd (main "data" ["old_format.ipynb"; "plots.ipynb"]
              (initial quiet_directory (Some "stale")))) = quiet_directory ∧
  stdout (snd (main "data" ["old_format.ipynb"; "plots.ipynb"]
                 (initial quiet_directory (Some "stale")))) = [] ∧
  urls (snd (main "data" ["old_format.ipynb"; "plots.ipynb"]
               (initial quiet_directory (Some "stale")))) = ∅ ∧
  urls_txt (snd (main "data" ["old_format.ipynb"; "plots.ipynb"]
                   (initial quiet_directory (Some "stale")))) = Some EmptyString.
Proof.
  apply (nothing_found "data" ["old_format.ipynb"; "plots.ipynb"] quiet_directory
           (Some "stale")).
  vm_compute. reflexivity.
Defined.



(** ** Where the URLs of a notebook come from *)

Section Yields.

Lemma framed_run (m : M unit) (st : state) :
  framed m →
  m st = (fst (m (initial ∅ None)),
          set_urls (urls (snd (m (initial ∅ None))) ∪ urls st) st).
Proof.
  intros (o & U & H). rewrite !H. cbn. do 2 f_equal. set_solver.
Qed.

(** A loop of framed bodies that ends normally adds what each body adds. *)
Lemma for_each_urls {A} (body : A → M unit) (l : list A) (st st' : state) (u : string) :
  (∀ x, framed (body x)) →
  for_each body l st = (Returns tt, st') →
  u ∈ urls st' ↔
  u ∈ urls st ∨ ∃ x, x ∈ l ∧ u ∈ urls (snd (body x (initial ∅ None))).
Proof.
  intros Hbody. revert st. induction l as [|x l IH]; intros st Hrun.
  - injection Hrun as <-. split; [by left|].
    by intros [?|(x & ?%elem_of_nil & _)].
  - rewrite for_each_cons, (framed_run _ st (Hbody x)) in Hrun.
    destruct (fst (body x (initial ∅ None))) as [[]|]; [|done].
    rewrite (IH _ Hrun). cbn. rewrite elem_of_union. split.
    + intros [[Hu|Hu]|(y & Hy & Hu)]; [right|by left|right].
      * exists x. split; [by left | done].
      * exists y. split; [by right | done].
    + intros [Hu|(y & [->|Hy]%elem_of_cons & Hu)]; [by left; right|by left; left|].
      right. by exists y.
Qed.

Lemma line_urls_iff (line : json) (u : string) :
  u ∈ urls (snd (scan_line line (initial ∅ None))) ↔ line_yields line u.
Proof.
  unfold line_yields. destruct (is_str line) eqn:Hstr.
  - destruct line as [| | | | s | |]; try done. rewrite scan_line_str.
    destruct (contains "pd.read_csv" s) eqn:Hcall; cbn [andb].
    2: { split; [set_solver|]. intros (s' & rest & [= <-] & ? & _). congruence. }
    destruct (_ || _) eqn:Hscheme; cbn [andb].
    2: { split; [set_solver|]. intros (s' & rest & [= <-] & _ & ? & _). congruence. }
    destruct (findall s) as [|url rest] eqn:Hf.
    { split; [set_solver|]. intros (s' & rest & [= <-] & _ & _ & ?). congruence. }
    cbn. split.
    + intros Hu. assert (u = url) as -> by set_solver. by exists s, rest.
    + intros (s' & rest' & [= <-] & _ & _ & Hf'). rewrite Hf in Hf'.
      simplify_eq. set_solver.
  - destruct (non_string_line_effect line (initial ∅ None) Hstr) as [-> _].
    split; [set_solver|]. intros (s & rest & -> & _). done.
Qed.

Lemma cell_urls_iff (cell : json) (st' : state) (u : string) :
  scan_cell cell (initial ∅ None) = (Returns tt, st') →
  u ∈ urls st' ↔ cell_yields cell u.
Proof.
  unfold cell_yields, scan_cell. rewrite lift_bind.
  destruct (py_getitem cell "cell_type") as [cell_type|]; [|done].
  destruct (py_ne_str cell_type "code") eqn:Htype.
  { intros [= <-]. split; [set_solver|].
    intros (? & ? & ? & [= ->] & _). done. }
  assert (cell_type = JStr "code") as ->.
  { destruct cell_type; try done. cbn in Htype.
    apply negb_false_iff, bool_decide_eq_true in Htype. by subst. }
  rewrite lift_bind.
  destruct (py_getitem cell "source") as [source|]; [|done].
  destruct (py_not source) eqn:Hnot.
  { intros [= <-]. split; [set_solver|].
    intros (? & ? & ? & _ & [= <-] & ? & _). congruence. }
  rewrite lift_bind. destruct (source_lines source) as [lines|] eqn:Hlines; [|done].
  intros Hrun. rewrite (for_each_urls _ _ _ _ _ framed_scan_line Hrun).
  setoid_rewrite line_urls_iff. split.
  - intros [?|(line & Hl & Hy)]; [set_solver|]. by exists source, lines, line.
  - intros (? & ? & line & _ & [= <-] & _ & Hlines' & Hl & Hy). right.
    rewrite Hlines in Hlines'. simplify_eq. eauto.
Qed.

End Yields.

Lemma nb_urls_yields (v : json) (u : string) :
  nb_ok v = true →
  u ∈ nb_urls v ↔ nb_yields v u.
Proof.
  unfold nb_ok, nb_urls, nb_scan, nb_yields, scan_cells. rewrite !lift_bind.
  destruct (py_get v "cells") as [cells|] eqn:Hcells_v; [|done].
  rewrite !lift_bind. destruct (py_iter cells) as [cell_list|] eqn:Hiter; [|done].
  destruct (for_each scan_cell cell_list (initial ∅ None)) as [[[]|] st'] eqn:Hrun;
    [|done].
  intros _. cbn [snd]. rewrite (for_each_urls _ _ _ _ _ framed_scan_cell Hrun).
  assert (∀ cell, cell ∈ cell_list →
            ∃ st1, scan_cell cell (initial ∅ None) = (Returns tt, st1)) as Hcells.
  { intros cell Hc.
    pose proof (for_each_returns _ _ _ _ (λ c _, framed_scan_cell c) Hrun
                  cell (initial ∅ None) Hc) as Hret.
    destruct (scan_cell cell (initial ∅ None)) as [o st1]. cbn in Hret. subst. eauto. }
  split.
  - intros [?|(cell & Hc & Hu)]; [set_solver|].
    destruct (Hcells cell Hc) as [st1 H1]. rewrite H1 in Hu.
    exists cells, cell_list, cell. by rewrite <- (cell_urls_iff cell st1).
  - intros (? & ? & cell & [= <-] & Hiter' & Hc & Hy). right.
    rewrite Hiter in Hiter'. simplify_eq.
    destruct (Hcells cell Hc) as [st1 H1]. exists cell. rewrite H1.
    by rewrite (cell_urls_iff cell st1).
Qed.

(** X7: what a notebook contributes: when its scan raises nothing, its URLs
    are exactly the first matches on the string lines that pass both
    substring checks, in the code cells whose source is truthy. *)
Theorem nb_urls_iff (v : json) (u : string) :
  nb_ok v = true →
  u ∈ nb_urls v ↔ nb_yields v u.
Proof. apply nb_urls_yields. Qed.

Lemma nb_urls_iff_witness :
  "https://z.com/a.csv" ∈ nb_urls za_notebook ↔
  nb_yields za_notebook "https://z.com/a.csv".
Proof. apply (nb_urls_iff za_notebook "https://z.com/a.csv"). reflexivity. Defined.

(** X6: the output, end to end: when the run ends normally, the URLs in
    [urls.txt] are exactly the first matches on qualifying lines of code
    cells of the listed entries that parse. *)
Theorem output_urls_iff
    (dirname : string) (listing : list string) (d : gmap string entry)
    (old : option string) (u : string) :
  fst (main dirname listing (initial d old)) = Returns tt →
  urls_txt (snd (main dirname listing (initial d old))) =
    Some (written (sorted (urls (snd (main dirname listing (initial d old)))))) ∧
  (u ∈ sorted (urls (snd (main dirname listing (initial d old)))) ↔
   ∃ f v, f ∈ listing ∧ d !! f = Some (RegularFile (Returns v)) ∧ nb_yields v u).
Proof.
  intros Hret. split.
  { by rewrite main_urls_txt, Hret. }
  rewrite sorted_elem_of, main_urls by done.
  destruct (main_returns _ _ _ _ Hret) as (st' & Hrun & _).
  apply scan_loop in Hrun as (_ & _ & Hok); [|apply nb_scanned_initial].
  cbn [initial dir] in Hok.
  assert (∀ f v, loaded d f = Some v ↔ d !! f = Some (RegularFile (Returns v))) as Hl.
  { intros f v. unfold loaded. destruct (d !! f) as [[[|]|]|]; naive_solver. }
  split.
  - intros (f & v & Hf & Hv & Hu). exists f, v. split; [done|]. split; [by apply Hl|].
    apply nb_urls_yields; [|done]. by apply (Hok f).
  - intros (f & v & Hf & Hv%Hl & Hy). exists f, v. split; [done|]. split; [done|].
    apply nb_urls_yields; [|done]. by apply (Hok f).
Qed.

Lemma output_urls_iff_witness :
  urls_txt (snd (main "data" ["one.ipynb"; "broken.ipynb"; "za.ipynb"]
                   (initial mixed_directory None))) =
    Some (written (sorted (urls (snd (main "data" ["one.ipynb"; "broken.ipynb"; "za.ipynb"]
                                       (initial mixed_directory None)))))) ∧
  ("https://a.com/b.csv"
     ∈ sorted (urls (snd (main "data" ["one.ipynb"; "broken.ipynb"; "za.ipynb"]
                            (initial mixed_directory None)))) ↔
   ∃ f v, f ∈ ["one.ipynb"; "broken.ipynb"; "za.ipynb"] ∧
          mixed_directory !! f = Some (RegularFile (Returns v)) ∧
          nb_yields v "https://a.com/b.csv").
Proof.
  apply (output_urls_iff "data" ["one.ipynb"; "broken.ipynb"; "za.ipynb"]
           mixed_directory None "https://a.com/b.csv").
  vm_compute. reflexivity.
Defined.
